(** * Notebook synchronisation of Saladict over WebDAV

    A shallow embedding of
    - [src/_helpers/promise-more.ts]            ([reflect]),
    - [background/sync-manager/helpers.ts]      (meta and notebook accessors),
    - [background/sync-manager/services/webdav] ([upload], [dlChanged], [initServer]),
    - [background/sync-manager/index.ts]        ([download], [syncServiceUpload], ...),
    followed by the properties of the synchronisation flow.

    Conventions of the embedding.
    - JavaScript strings are byte strings ([string]); [window.btoa] is total on them.
    - JSON numbers are integers ([Z]): timestamps are epoch milliseconds.
    - [undefined] is [None] in [jsval]; a missing property reads as [undefined].
    - An [async] function is a state transformer that ends [Resolved] or
      [Rejected]; every host call it makes is appended to the [trace].
    - [<=] and [>] are evaluated on numbers; a run that compares timestamps
      of another kind ends [Unmodelled].
    - The host ([fetch], [DOMParser], [Date.now], [JSON.stringify]) is a
      [World]; a response is the record of what its members return. *)

From Stdlib Require Import ZArith NArith List String Ascii Bool Lia DecimalString.
Import ListNotations.
Open Scope string_scope.
Open Scope Z_scope.
Set Warnings "-register-all".

(** ** JavaScript values and host functions *)
Module JS.

(** Values produced by [JSON.parse]. *)
Inductive json : Type :=
| JNull
| JBool (b : bool)
| JNum (n : Z)
| JStr (s : string)
| JArr (items : list json)
| JObj (props : list (string * json)).

(** A JavaScript value read from parsed JSON; [None] is [undefined]. *)
Definition jsval : Type := option json.

Fixpoint lookup (k : string) (props : list (string * json)) : jsval :=
  match props with
  | [] => None
  | (k', v) :: rest => if String.eqb k k' then Some v else lookup k rest
  end.

(** [v.k] for the keys this program reads ([words], [date], [timestamp]),
    none of which is a built-in property of a primitive or of an array.
    The outer [None] is the [TypeError] raised on [null]. *)
Definition get_prop (v : json) (k : string) : option jsval :=
  match v with
  | JNull => None
  | JObj props => Some (lookup k props)
  | JBool _ | JNum _ | JStr _ | JArr _ => Some None
  end.

(** ToBoolean. *)
Definition truthy (v : jsval) : bool :=
  match v with
  | None => false
  | Some JNull => false
  | Some (JBool b) => b
  | Some (JNum n) => negb (n =? 0)
  | Some (JStr s) => negb (String.eqb s "")
  | Some (JArr _) => true
  | Some (JObj _) => true
  end.

Definition isArray (v : jsval) : bool :=
  match v with
  | Some (JArr _) => true
  | _ => false
  end.

(** [a <= b] and [a > b] on two numbers.  Operands that are not both numbers
    go through ToPrimitive and ToNumber, which are outside this embedding:
    the comparison is then [None]. *)
Definition js_le (a b : jsval) : option bool :=
  match a, b with
  | Some (JNum x), Some (JNum y) => Some (x <=? y)
  | _, _ => None
  end.

Definition js_gt (a b : jsval) : option bool :=
  match a, b with
  | Some (JNum x), Some (JNum y) => Some (x >? y)
  | _, _ => None
  end.

(** [s.endsWith(suffix)]. *)
Definition endsWith (s suffix : string) : bool :=
  let n := String.length s in
  let m := String.length suffix in
  (m <=? n)%nat && String.eqb (substring (n - m) m s) suffix.

(** *** [window.btoa]: base64 of a byte string (RFC 4648, with padding) *)

Definition b64_alphabet : string :=
  "ABCDEFGHIJKLMNOPQRSTUVWXYZabcdefghijklmnopqrstuvwxyz0123456789+/".

Definition b64_digit (n : N) : ascii :=
  match String.get (N.to_nat n) b64_alphabet with
  | Some c => c
  | None => "="%char
  end.

Definition bytes_of (s : string) : list N :=
  List.map N_of_ascii (list_ascii_of_string s).

Fixpoint b64_groups (l : list N) : list ascii :=
  match l with
  | [] => []
  | [a] =>
      [b64_digit (a / 4); b64_digit ((a mod 4) * 16); "="; "="]%char%N
  | [a; b] =>
      [b64_digit (a / 4); b64_digit ((a mod 4) * 16 + b / 16);
       b64_digit ((b mod 16) * 4); "="%char]%N
  | a :: b :: c :: rest =>
      ([b64_digit (a / 4); b64_digit ((a mod 4) * 16 + b / 16);
        b64_digit ((b mod 16) * 4 + c / 64); b64_digit (c mod 64)]%N)
      ++ b64_groups rest
  end.

Definition btoa (s : string) : string :=
  string_of_list_ascii (b64_groups (bytes_of s)).

End JS.

Import JS.

(** ** Shared types and store accessors ([sync-manager/helpers.ts]) *)
Module Helpers.

(** What a promise is rejected with. *)
Inductive error : Type :=
| Reason (s : string)   (* [Promise.reject('...')] with a reason string *)
| TypeError             (* a property read on [null] *)
| FetchFailed           (* [fetch] itself rejects: no response at all *)
| BodyFailed            (* reading the body of a response rejects *)
| StoreFailed.          (* the notebook database refuses a write *)

(** How an [async] function ends.  [Unmodelled] marks the one thing the
    embedding does not evaluate: a comparison of timestamps that are not
    both numbers (see [JS.js_le]). *)
Inductive outcome (A : Type) : Type :=
| Resolved (a : A)
| Rejected (e : error)
| Unmodelled.
Arguments Resolved {A} a.
Arguments Rejected {A} e.
Arguments Unmodelled {A}.

Record SyncConfig : Type := {
  url : string;        (* server address, ends with '/' *)
  user : string;
  passwd : string;
  duration : Z         (* in ms *)
}.

Record Meta : Type := {
  etag : option string;
  timestamp : jsval
}.

(** [{}], what [download] passes when no meta is stored. *)
Definition emptyMeta : Meta := {| etag := None; timestamp := None |}.

(** [meta || {}] *)
Definition orEmptyMeta (m : option Meta) : Meta :=
  match m with
  | Some m => m
  | None => emptyMeta
  end.

Record DlResponse : Type := {
  dl_json : json;
  dl_etag : string
}.

Record Request : Type := {
  method : string;
  target : string;
  headers : list (string * string);
  body : option string
}.

(** A [fetch] response, as the results of the members the program reads:
    [status], [headers.get('ETag')], [text()] and [json()] (the last two
    are [None] when their promise rejects). *)
Record Response : Type := {
  status : Z;
  header_ETag : option string;
  resp_text : option string;
  resp_json : option json
}.

Definition ok (r : Response) : bool :=
  (200 <=? status r) && (status r <=? 299).

(** One [<response>] element of a PROPFIND multi-status document:
    [href] is the text content of its first [href] descendant, [collection]
    says whether [querySelector('resourcetype collection')] finds a node. *)
Record ResponseEl : Type := {
  href : option string;
  collection : bool
}.

(** [Array.from(doc.querySelectorAll('response'))]. *)
Definition Document : Type := list ResponseEl.

(** The host environment of one run. *)
Record World : Type := {
  fetch : Request -> option Response;          (* [None]: the call rejects *)
  parseFromString : string -> option Document; (* [None]: throws or no document *)
  Date_now : nat -> Z;                         (* the clock at its n-th reading *)
  JSON_stringify : Z -> list json -> option string;  (* of [{timestamp, words}]; [None]: throws *)
  storeAccepts : list json -> bool             (* does the notebook write succeed *)
}.

Inductive event : Type :=
| EvFetch (r : Request)
| EvSetMeta (m : Meta)
| EvSaveWords (words : list json).

(** The stores of the extension, and the host calls made so far. *)
Record State : Type := {
  syncConfig : option SyncConfig;   (* [syncConfig[serviceID]] of the sync area *)
  meta : option Meta;               (* the sync meta of [serviceID], parsed *)
  notebook : list json;             (* the words of the notebook area *)
  ticks : nat;                      (* how often [Date.now()] was read *)
  trace : list event
}.

Definition M (A : Type) : Type := State -> outcome A * State.

Definition ret {A} (a : A) : M A := fun st => (Resolved a, st).

Definition bind {A B} (m : M A) (k : A -> M B) : M B :=
  fun st =>
    match m st with
    | (Resolved a, st') => k a st'
    | (Rejected e, st') => (Rejected e, st')
    | (Unmodelled, st') => (Unmodelled, st')
    end.

Definition reject {A} (e : error) : M A := fun st => (Rejected e, st).

Definition unmodelled {A} : M A := fun st => (Unmodelled, st).

(** The state once one more host call is on the trace. *)
Definition pushed (e : event) (st : State) : State :=
  {| syncConfig := syncConfig st; meta := meta st;
     notebook := notebook st; ticks := ticks st; trace := trace st ++ [e] |}.

Definition log (e : event) : M unit :=
  fun st => (Resolved tt, pushed e st).

(** A value that may throw a [TypeError], used inside an [async] body. *)
Definition orTypeError {A} (x : option A) : M A :=
  match x with
  | Some a => ret a
  | None => reject TypeError
  end.

Definition orUnmodelled {A} (x : option A) : M A :=
  match x with
  | Some a => ret a
  | None => unmodelled
  end.

Declare Scope async_scope.
Delimit Scope async_scope with async.
Notation "x <- m ;; k" := (bind m (fun x => k))
  (at level 61, m at next level, right associativity) : async_scope.
Notation "m ;;; k" := (bind m (fun _ => k))
  (at level 61, right associativity) : async_scope.
Open Scope async_scope.

Definition getSyncConfig : M (option SyncConfig) :=
  fun st => (Resolved (syncConfig st), st).

Definition withMeta (m : Meta) (st : State) : State :=
  {| syncConfig := syncConfig st; meta := Some m;
     notebook := notebook st; ticks := ticks st; trace := trace st |}.

Definition withNotebook (ws : list json) (st : State) : State :=
  {| syncConfig := syncConfig st; meta := meta st;
     notebook := ws; ticks := ticks st; trace := trace st |}.

Definition ticked (st : State) : State :=
  {| syncConfig := syncConfig st; meta := meta st;
     notebook := notebook st; ticks := S (ticks st); trace := trace st |}.

(** Modelled from the spec: [setSyncMeta] and [getSyncMeta] of
    [background/database], which is not among the sources.  The meta store
    keeps, per service, the string-encoded JSON of one Meta; it is held
    parsed here ([JSON.parse] undoes [JSON.stringify] on the records this
    flow writes), and [None] stands for "nothing stored yet". *)
Definition setSyncMeta (m : Meta) : M unit :=
  log (EvSetMeta m) ;;;
  fun st => (Resolved tt, withMeta m st).

Definition getSyncMeta : M (option Meta) :=
  fun st => (Resolved (meta st), st).

Definition setMeta (m : Meta) : M unit :=
  setSyncMeta m.

Definition getMeta : M (option Meta) :=
  getSyncMeta.

Section WithWorld.
Variable w : World.

(** [await fetch(...)]: the request is issued, then the promise settles. *)
Definition fetch_ (r : Request) : M Response :=
  log (EvFetch r) ;;;
  match fetch w r with
  | Some response => ret response
  | None => reject FetchFailed
  end.

(** Modelled from the spec: [saveWords] and [getWords] of
    [background/database], which is not among the sources.  The Notebook
    Store persists the list of saved words of the notebook area; a write
    that the store refuses rejects and leaves the list as it was. *)
Definition saveWords (ws : list json) : M unit :=
  log (EvSaveWords ws) ;;;
  if storeAccepts w ws
  then fun st => (Resolved tt, withNotebook ws st)
  else reject StoreFailed.

Definition getWords : M (list json) :=
  fun st => (Resolved (notebook st), st).

(** [setNotebook(words)], with [words : Word[]]. *)
Definition setNotebook (words : jsval) : M unit :=
  match words with
  | Some (JArr ws) => saveWords ws
  | _ => unmodelled
  end.

(** [(await getWords(...)).words || []] *)
Definition getNotebook : M (list json) :=
  getWords.

(** [Date.now()] *)
Definition now : M Z :=
  fun st => (Resolved (Date_now w (ticks st)), ticked st).

End WithWorld.

End Helpers.

Import Helpers.

(** ** The WebDAV service ([sync-manager/services/webdav]) *)
Module Webdav.

Definition serviceID : string := "webdav".

(** ['Authorization': 'Basic ' + window.btoa(`${config.user}:${config.passwd}`)] *)
Definition authorization (config : SyncConfig) : string * string :=
  ("Authorization", "Basic " ++ btoa (user config ++ ":" ++ passwd config)).

(** The headers of the conditional GET: [If-None-Match] and
    [If-Modified-Since] are added when [meta.etag != null]. *)
Definition dlHeaders (config : SyncConfig) (meta : Meta) : list (string * string) :=
  authorization config ::
  match etag meta with
  | Some e => [("If-None-Match", e); ("If-Modified-Since", e)]
  | None => []
  end.

Definition putRequest (config : SyncConfig) (text : string) : Request :=
  {| method := "PUT";
     target := url config ++ "Saladict/notebook.json";
     headers := [authorization config];
     body := Some text |}.

Definition getRequest (config : SyncConfig) (meta : Meta) : Request :=
  {| method := "GET";
     target := url config ++ "Saladict/notebook.json";
     headers := dlHeaders config meta;
     body := None |}.

Definition propfindRequest (config : SyncConfig) : Request :=
  {| method := "PROPFIND";
     target := url config;
     headers := [authorization config;
                 ("Content-Type", "application/xml; charset=" ++ String "034" ("utf-8" ++ String "034" ""));
                 ("Depth", "2")];
     body := None |}.

Definition mkcolRequest (config : SyncConfig) : Request :=
  {| method := "MKCOL";
     target := url config ++ "Saladict";
     headers := [];
     body := None |}.

(** [words.some(w => !w.date)]; [None] when reading [w.date] throws. *)
Fixpoint someLacksDate (words : list json) : option bool :=
  match words with
  | [] => Some false
  | word :: rest =>
      match get_prop word "date" with
      | None => None
      | Some date => if negb (truthy date) then Some true else someLacksDate rest
      end
  end.

(** [s || ''] *)
Definition orEmpty (s : option string) : string :=
  match s with
  | Some e => e
  | None => ""
  end.

(** What the callback given to [some] in [initServer] returns: a boolean,
    or the promise made by [Promise.reject('dir')]. *)
Inductive cbValue : Type :=
| CbBool (b : bool)
| CbRejectedPromise (reason : string).

(** ToBoolean of the callback's result: an object is truthy. *)
Definition cbTruthy (v : cbValue) : bool :=
  match v with
  | CbBool b => b
  | CbRejectedPromise _ => true
  end.

Definition isSaladict (el : ResponseEl) : cbValue :=
  match href el with
  | Some textContent =>
      if negb (String.eqb textContent "") && endsWith textContent "/Saladict/"
      then if collection el
           then CbBool true
           else CbRejectedPromise "dir"
      else CbBool false
  | None => CbBool false
  end.

(** [Array.prototype.some] *)
Definition some {A} (callback : A -> cbValue) (arr : list A) : bool :=
  existsb (fun el => cbTruthy (callback el)) arr.

(** [try { ... } catch (e) { ... }] around awaited code. *)
Definition tryCatch {A} (m : M A) (handler : error -> M A) : M A :=
  fun st =>
    match m st with
    | (Rejected e, st') => handler e st'
    | r => r
    end.

Section WithWorld.
Variable w : World.

Definition upload (config : SyncConfig) (text : string) : M bool :=
  response <- fetch_ w (putRequest config text) ;;
  ret (ok response).

Definition dlChanged (config : SyncConfig) (meta : Meta) : M (option DlResponse) :=
  response <- fetch_ w (getRequest config meta) ;;
  if status response =? 304 then ret None else
  match resp_json response with
  | None => ret None
  | Some json =>
      words <- orTypeError (get_prop json "words") ;;
      invalid <- match words with
                 | Some (JArr ws) => orTypeError (someLacksDate ws)
                 | _ => ret true
                 end ;;
      if invalid then ret None else
      stale <- (if truthy (timestamp meta) then
                  ts <- orTypeError (get_prop json "timestamp") ;;
                  if negb (truthy ts) then ret true
                  else orUnmodelled (js_le ts (timestamp meta))
                else ret false) ;;
      if stale then ret None else
      ret (Some {| dl_json := json; dl_etag := orEmpty (header_ETag response) |})
  end.

Definition initServer (config : SyncConfig) : M unit :=
  text <- tryCatch
            (response <- fetch_ w (propfindRequest config) ;;
             match resp_text response with
             | Some t => ret t
             | None => reject BodyFailed
             end)
            (fun _ => reject (Reason "network")) ;;
  doc <- match parseFromString w text with
         | Some d => ret d
         | None => reject (Reason "parse")
         end ;;
  let dir := some isSaladict doc in
  if negb dir then
    response <- fetch_ w (mkcolRequest config) ;;
    if negb (ok response) then reject (Reason "mkcol") else ret tt
  else
    meta <- getMeta ;;
    match meta with
    | Some meta =>
        if truthy (timestamp meta) then
          file <- dlChanged config meta ;;
          match file with
          | Some file =>
              ts <- orTypeError (get_prop (dl_json file) "timestamp") ;;
              newer <- orUnmodelled (js_gt (timestamp meta) ts) ;;
              if newer then reject (Reason "exist") else ret tt
          | None => ret tt
          end
        else ret tt
    | None => ret tt
    end.

End WithWorld.

End Webdav.

(** ** The sync manager ([sync-manager/index.ts]) *)
Module SyncManager.

Section WithWorld.
Variable w : World.

Definition syncServiceInit (config : SyncConfig) : M unit :=
  Webdav.initServer w config.

Definition download (config : SyncConfig) : M unit :=
  meta <- getMeta ;;
  response <- Webdav.dlChanged w config (orEmptyMeta meta) ;;
  match response with
  | None => ret tt
  | Some response =>
      let json := dl_json response in
      ts <- orTypeError (get_prop json "timestamp") ;;
      setMeta {| timestamp := ts; etag := Some (dl_etag response) |} ;;;
      words <- orTypeError (get_prop json "words") ;;
      setNotebook w words
  end.

Definition syncServiceUpload : M unit :=
  config <- getSyncConfig ;;
  match config with
  | None => ret tt
  | Some config =>
      download config ;;;
      words <- getNotebook ;;
      if (List.length words <=? 0)%nat then ret tt else
      timestamp <- now w ;;
      match JSON_stringify w timestamp words with
      | None => ret tt
      | Some text =>
          ok <- Webdav.upload w config text ;;
          if negb ok then ret tt else
          setMeta {| timestamp := Some (JNum timestamp); etag := Some "" |}
      end
  end.

Definition syncServiceDownload : M unit :=
  config <- getSyncConfig ;;
  match config with
  | None => ret tt
  | Some config => download config
  end.

End WithWorld.

End SyncManager.

(** ** Promise helpers ([_helpers/promise-more.ts]) *)
Module PromiseMore.

Section Promises.
(** What a promise can be rejected with. *)
Variable E : Type.

Inductive promise (T : Type) : Type :=
| Pending                 (* never settles *)
| Fulfilled (v : T)
| RejectedWith (e : E).
Arguments Pending {T}.
Arguments Fulfilled {T} v.
Arguments RejectedWith {T} e.

(** An entry of the iterable, [T | PromiseLike<T>]. *)
Inductive entry (T : Type) : Type :=
| Value (v : T)
| Thenable (p : promise T).
Arguments Value {T} v.
Arguments Thenable {T} p.

(** [Promise.resolve(p)] *)
Definition Promise_resolve {T} (p : entry T) : promise T :=
  match p with
  | Value v => Fulfilled v
  | Thenable q => q
  end.

(** [p.catch(handler)] *)
Definition catch {T} (p : promise T) (handler : E -> T) : promise T :=
  match p with
  | Pending => Pending
  | Fulfilled v => Fulfilled v
  | RejectedWith e => Fulfilled (handler e)
  end.

(** A [Promise<T>] seen as a [Promise<T | null>]; [null] is [None]. *)
Definition nullable {T} (p : promise T) : promise (option T) :=
  match p with
  | Pending => Pending
  | Fulfilled v => Fulfilled (Some v)
  | RejectedWith e => RejectedWith e
  end.

(** [Promise.all]: rejected as soon as one entry is (the reason kept is
    that of the first in the array), pending while one entry is, else
    fulfilled with the values in order. *)
Fixpoint Promise_all {T} (arr : list (promise T)) : promise (list T) :=
  match arr with
  | [] => Fulfilled []
  | p :: rest =>
      match p, Promise_all rest with
      | RejectedWith e, _ => RejectedWith e
      | _, RejectedWith e => RejectedWith e
      | Pending, _ => Pending
      | Fulfilled _, Pending => Pending
      | Fulfilled v, Fulfilled vs => Fulfilled (v :: vs)
      end
  end.

(** Like [Promise.all] but always resolves. *)
Definition reflect {T} (iterable : list (entry T)) : promise (list (option T)) :=
  Promise_all
    (List.map (fun p => catch (nullable (Promise_resolve p)) (fun _ => None))
              iterable).

(** Has the entry settled: a plain value, or a promise that is fulfilled
    or rejected. *)
Definition settled {T} (p : entry T) : bool :=
  match Promise_resolve p with
  | Pending => false
  | Fulfilled _ => true
  | RejectedWith _ => true
  end.

(** The value of a fulfilled entry, [null] for any other. *)
Definition valueOrNull {T} (p : entry T) : option T :=
  match Promise_resolve p with
  | Fulfilled v => Some v
  | Pending => None
  | RejectedWith _ => None
  end.

End Promises.

Arguments Pending {E T}.
Arguments Fulfilled {E T} v.
Arguments RejectedWith {E T} e.
Arguments Value {E T} v.
Arguments Thenable {E T} p.
Arguments Promise_resolve {E T} p.
Arguments catch {E T} p handler.
Arguments nullable {E T} p.
Arguments Promise_all {E T} arr.
Arguments reflect {E T} iterable.
Arguments settled {E T} p.
Arguments valueOrNull {E T} p.

End PromiseMore.

(** ** Vocabulary of the statements *)

(** The words array of a parsed notebook file ([[]] when it has none). *)
Definition wordsOf (file : json) : list json :=
  match get_prop file "words" with
  | Some (Some (JArr ws)) => ws
  | _ => []
  end.

(** The events a run appended to the trace. *)
Definition issued (before after : State) : list event :=
  skipn (List.length (trace before)) (trace after).

(** The word carries a [date] property, whatever its value. *)
Definition hasDateField (word : json) : Prop :=
  exists d, get_prop word "date" = Some (Some d).

(** The word passes the check of [dlChanged]: [word.date] is truthy. *)
Definition hasTruthyDate (word : json) : Prop :=
  exists d, get_prop word "date" = Some d /\ truthy d = true.

(** The meta that a [download] starting in [st] hands to [dlChanged]. *)
Definition storedOrEmpty (st : State) : Meta := orEmptyMeta (meta st).

(** The state after an applied cycle: the GET, then the meta write, then
    the notebook write, which takes effect only if the store accepts it. *)
Definition appliedState (w : World) (config : SyncConfig) (st : State)
           (m' : Meta) (ws : list json) : State :=
  let st1 := pushed (EvFetch (Webdav.getRequest config (storedOrEmpty st))) st in
  let st2 := withMeta m' (pushed (EvSetMeta m') st1) in
  let st3 := pushed (EvSaveWords ws) st2 in
  if storeAccepts w ws then withNotebook ws st3 else st3.

(** ** Concrete servers and stores *)
Module Samples.

Definition config : SyncConfig :=
  {| url := "https://dav.example/dav/"; user := "user"; passwd := "pass";
     duration := 60000 |}.

Definition word (date : Z) : json := JObj [("date", JNum date); ("text", JStr "salad")].

Definition file (ts : Z) (words : list json) : json :=
  JObj [("timestamp", JNum ts); ("words", JArr words)].

Definition response (code : Z) (tag : option string) (payload : option json) : Response :=
  {| status := code; header_ETag := tag; resp_text := Some "<multistatus/>";
     resp_json := payload |}.

(** Decimal digits of a timestamp, for the stand-in serialiser below. *)
Definition decimal (n : Z) : string :=
  NilZero.string_of_int (Z.to_int n).

(** A server that answers each method with a fixed response. *)
Definition server (propfind get put mkcol : option Response) (r : Request) : option Response :=
  if String.eqb (method r) "PROPFIND" then propfind
  else if String.eqb (method r) "GET" then get
  else if String.eqb (method r) "PUT" then put
  else if String.eqb (method r) "MKCOL" then mkcol
  else None.

Definition world (doc : Document) (get : option Response) (store_ok : bool) : World :=
  {| fetch := server (Some (response 207 None None)) get
                     (Some (response 201 None None)) (Some (response 201 None None));
     parseFromString := fun _ => Some doc;
     Date_now := fun n => 2000 + Z.of_nat n;
     JSON_stringify := fun ts words =>
                         Some ("{timestamp:" ++ decimal ts ++ ",words:["
                               ++ string_of_list_ascii
                                    (List.repeat "*"%char (List.length words))
                               ++ "]}");
     storeAccepts := fun _ => store_ok |}.

Definition store (m : option Meta) (words : list json) : State :=
  {| syncConfig := Some config; meta := m; notebook := words; ticks := 0;
     trace := [] |}.

(** [Saladict/] is listed as a collection. *)
Definition docCollection : Document :=
  [ {| href := Some "/dav/"; collection := true |};
    {| href := Some "/dav/Saladict/"; collection := true |} ].

(** [Saladict/] is listed, but is not a collection. *)
Definition docPlainFile : Document :=
  [ {| href := Some "/dav/"; collection := true |};
    {| href := Some "/dav/Saladict/"; collection := false |} ].

(** [Saladict/] is not listed. *)
Definition docMissing : Document :=
  [ {| href := Some "/dav/"; collection := true |} ].

End Samples.

(** ** Vocabulary of the further properties *)




(** ** The other promise helpers ([_helpers/promise-more.ts]) *)
Module PromiseRest.

Import PromiseMore.

Section AnyFirst.
(** What the entries can be rejected with, and what they are fulfilled with. *)
Variables E T : Type.

(** What the promise of [any] or of [first] can be rejected with. *)
Inductive failure : Type :=
| AllRejected            (* [new Error('All rejected')] *)
| Passed (e : E).        (* a rejection handed on as it came *)

(** Did the handler given to [catch] run for this entry. *)
Definition isRejected (p : entry E T) : bool :=
  match Promise_resolve p with
  | RejectedWith _ => true
  | Pending => false
  | Fulfilled _ => false
  end.

(** [arr.map(p => Promise.resolve(p).catch(e => { rejectCount++; return null }))]:
    the promises made, and the counter once the handlers of the rejected
    entries have run. *)
Fixpoint mapCounting (arr : list (entry E T)) (rejectCount : nat)
  : list (promise E (option T)) * nat :=
  match arr with
  | [] => ([], rejectCount)
  | p :: rest =>
      let q := catch (nullable (Promise_resolve p)) (fun _ => None) in
      let c := if isRejected p then S rejectCount else rejectCount in
      let (qs, c') := mapCounting rest c in
      (q :: qs, c')
  end.

(** [p.then(onFulfilled)], the callback returning a promise. *)
Definition then_ {A B} (p : promise E A) (onFulfilled : A -> promise failure B)
  : promise failure B :=
  match p with
  | Pending => Pending
  | Fulfilled v => onFulfilled v
  | RejectedWith e => RejectedWith (Passed e)
  end.

(** Like [Promise.all] but only rejects when all are failed.  The callback
    of [then] reads the counter when [Promise.all] is fulfilled, that is
    after the handler of every rejected entry has run. *)
Definition any (iterable : list (entry E T)) : promise failure (list (option T)) :=
  let (promises, rejectCount) := mapCounting iterable 0 in
  then_ (Promise_all promises)
        (fun resolutions =>
           if (rejectCount =? List.length resolutions)%nat
           then RejectedWith AllRejected
           else Fulfilled resolutions).

(** The promise [first] builds, with the counter its callbacks share. *)
Record firstRun : Type := {
  rejectCount : nat;
  result : promise failure T
}.

(** [resolve(v)] and [reject(e)] of the promise under construction settle it
    once: a later call changes nothing. *)
Definition settle (current next : promise failure T) : promise failure T :=
  match current with
  | Pending => next
  | Fulfilled _ => current
  | RejectedWith _ => current
  end.

(** What an entry does when it settles: fulfilled, [then(resolve)] calls
    [resolve]; rejected, the handler of [catch] counts it and calls [reject]
    when the count reaches [arr.length]. *)
Inductive settlement : Type :=
| Fulfils (v : T)
| Rejects (e : E).

Definition isRejects (ev : settlement) : bool :=
  match ev with
  | Rejects _ => true
  | Fulfils _ => false
  end.

Definition onSettle (arrLength : nat) (s : firstRun) (ev : settlement) : firstRun :=
  match ev with
  | Fulfils v =>
      {| rejectCount := rejectCount s;
         result := settle (result s) (Fulfilled v) |}
  | Rejects _ =>
      let c := S (rejectCount s) in
      {| rejectCount := c;
         result := if (c =? arrLength)%nat
                   then settle (result s) (RejectedWith AllRejected)
                   else result s |}
  end.

(** The settlements of the entries whose indices are [order], in that
    order; an index outside the array, or of an entry that never settles,
    gives none. *)
Definition settlementOf (arr : list (entry E T)) (i : nat) : list settlement :=
  match nth_error arr i with
  | Some p =>
      match Promise_resolve p with
      | Pending => []
      | Fulfilled v => [Fulfils v]
      | RejectedWith e => [Rejects e]
      end
  | None => []
  end.

Definition timeline (arr : list (entry E T)) (order : list nat) : list settlement :=
  flat_map (settlementOf arr) order.

(** Returns the first resolved value as soon as it is resolved; fails when
    all are failed.  [order] lists the indices of the entries in the order in
    which the host settles them. *)
Definition first (arr : list (entry E T)) (order : list nat) : promise failure T :=
  result (fold_left (onSettle (List.length arr)) (timeline arr order)
                    {| rejectCount := 0; result := Pending |}).

End AnyFirst.

Arguments AllRejected {E}.
Arguments Passed {E} e.
Arguments isRejected {E T} p.
Arguments mapCounting {E T} arr rejectCount.
Arguments then_ {E A B} p onFulfilled.
Arguments any {E T} iterable.
Arguments rejectCount {E T} f.
Arguments result {E T} f.
Arguments settle {E T} current next.
Arguments Fulfils {E T} v.
Arguments Rejects {E T} e.
Arguments isRejects {E T} ev.
Arguments onSettle {E T} arrLength s ev.
Arguments settlementOf {E T} arr i.
Arguments timeline {E T} arr order.
Arguments first {E T} arr order.

End PromiseRest.

(** Has every index of the array been settled, according to [order]. *)
Definition allSettledIn {A} (arr : list A) (order : list nat) : bool :=
  forallb (fun i => existsb (Nat.eqb i) order) (seq 0 (List.length arr)).

(** ** The configuration store ([sync-manager/helpers.ts] over
    [storage.sync] of [_helpers/browser-api]) *)
Module ConfigStore.

Section Configs.
(** A configuration, as the storage area gives it back. *)
Variable C : Type.

(** The object held under the key [syncConfig]: its own properties, one
    per service. *)
Definition Configs : Type := list (string * C).

(** The names every object inherits from [Object.prototype]. *)
Definition inheritedNames : list string :=
  ["constructor"; "hasOwnProperty"; "isPrototypeOf"; "propertyIsEnumerable";
   "toLocaleString"; "toString"; "valueOf"; "__proto__";
   "__defineGetter__"; "__defineSetter__"; "__lookupGetter__"; "__lookupSetter__"].

Definition inherited (name : string) : bool :=
  existsb (String.eqb name) inheritedNames.

(** What reading a property gives. *)
Inductive value : Type :=
| Own (c : C)                (* an own property: a stored configuration *)
| Inherited (name : string)  (* a member of [Object.prototype] *)
| Undefined.

Fixpoint own (k : string) (o : Configs) : option C :=
  match o with
  | [] => None
  | (k', c) :: rest => if String.eqb k k' then Some c else own k rest
  end.

(** [o[k]] *)
Definition read (k : string) (o : Configs) : value :=
  match own k o with
  | Some c => Own c
  | None => if inherited k then Inherited k else Undefined
  end.

Fixpoint put (k : string) (c : C) (o : Configs) : Configs :=
  match o with
  | [] => [(k, c)]
  | (k', c') :: rest =>
      if String.eqb k k' then (k, c) :: rest else (k', c') :: put k c rest
  end.

(** [o[k] = c]: an own property is written or created, except under
    [__proto__], which is an accessor and leaves the own properties alone. *)
Definition assign (k : string) (c : C) (o : Configs) : Configs :=
  if String.eqb k "__proto__" then o else put k c o.

(** The sync area, as far as this flow goes: the value under [syncConfig]
    ([None]: the key is absent), and the objects handed to
    [chrome.storage.sync.set] so far. *)
Record Area : Type := {
  held : option Configs;
  written : list Configs
}.

(** [chrome.runtime.lastError] as the callback of the next [get] and of the
    next [set] will find it ([None]: the call succeeds). *)
Record Faults : Type := {
  getError : option string;
  setError : option string
}.

(** [storage.sync.get('syncConfig')] without a callback: the promise is
    rejected with the message of [lastError], or resolved with the data. *)
Definition storageGet (faults : Faults) (area : Area) : outcome (option Configs) * Area :=
  match getError faults with
  | Some message => (Rejected (Reason message), area)
  | None => (Resolved (held area), area)
  end.

(** [storage.sync.set({ syncConfig })] without a callback.  A set that
    ends with [lastError] is taken to have stored nothing. *)
Definition storageSet (faults : Faults) (syncConfig : Configs) (area : Area)
  : outcome unit * Area :=
  let called := (written area ++ [syncConfig])%list in
  match setError faults with
  | Some message =>
      (Rejected (Reason message), {| held := held area; written := called |})
  | None =>
      (Resolved tt, {| held := Some syncConfig; written := called |})
  end.

Definition setSyncConfig (faults : Faults) (serviceID : string) (config : C)
           (area : Area) : outcome unit * Area :=
  match storageGet faults area with
  | (Resolved data, area1) =>
      let syncConfig := match data with Some o => o | None => [] end in
      let syncConfig := assign serviceID config syncConfig in
      storageSet faults syncConfig area1
  | (Rejected e, area1) => (Rejected e, area1)
  | (Unmodelled, area1) => (Unmodelled, area1)
  end.

Definition getSyncConfig (faults : Faults) (serviceID : string) (area : Area)
  : outcome value * Area :=
  match storageGet faults area with
  | (Resolved data, area1) =>
      match data with
      | Some syncConfig => (Resolved (read serviceID syncConfig), area1)
      | None => (Resolved Undefined, area1)
      end
  | (Rejected e, area1) => (Rejected e, area1)
  | (Unmodelled, area1) => (Unmodelled, area1)
  end.

End Configs.

Arguments Own {C} c.
Arguments Inherited {C} name.
Arguments Undefined {C}.
Arguments own {C} k o.
Arguments read {C} k o.
Arguments put {C} k c o.
Arguments assign {C} k c o.
Arguments held {C} a.
Arguments written {C} a.
Arguments storageGet {C} faults area.
Arguments storageSet {C} faults syncConfig area.
Arguments setSyncConfig {C} faults serviceID config area.
Arguments getSyncConfig {C} faults serviceID area.

(** No [lastError] on either call. *)
Definition noFaults : Faults := {| getError := None; setError := None |}.

End ConfigStore.

(** ** Self page messaging ([_helpers/browser-api]) *)
Module BrowserApi.

(** [window.pageId]: the id of the tab the page lives in, ['popup'], or
    ['background page']. *)
Inductive PageId : Type :=
| TabId (id : Z)
| Popup
| BackgroundPage.

Definition pageId_eqb (a b : PageId) : bool :=
  match a, b with
  | TabId x, TabId y => x =? y
  | Popup, Popup => true
  | BackgroundPage, BackgroundPage => true
  | _, _ => false
  end.

(** [a === b] on two values that may be [undefined]. *)
Definition sameId (a b : option PageId) : bool :=
  match a, b with
  | Some x, Some y => pageId_eqb x y
  | None, None => true
  | _, _ => false
  end.

Section Messages.
(** Whatever else a message carries. *)
Variable P : Type.

Record Message : Type := {
  msg : string;
  pageId : option PageId;      (* [__pageId__] *)
  payload : P
}.

(** [sender.tab], reduced to [sender.tab.id]. *)
Record Sender : Type := {
  tab : option Z
}.

Definition getPageId (sender : Sender) : PageId :=
  match tab sender with
  | Some id => TabId id
  | None => Popup
  end.

(** The characters [.] does not match, among bytes: LF and CR. *)
Definition lineTerminator (c : ascii) : bool :=
  Ascii.eqb c "010" || Ascii.eqb c "013".

Fixpoint noLineTerminator (s : string) : bool :=
  match s with
  | EmptyString => true
  | String c rest => negb (lineTerminator c) && noLineTerminator rest
  end.

(** What stands before a final ["_&_"], if the string ends with one. *)
Fixpoint beforeTail (s : string) : option string :=
  match s with
  | EmptyString => None
  | String c rest =>
      if String.eqb s "_&_" then Some EmptyString
      else match beforeTail rest with
           | Some mid => Some (String c mid)
           | None => None
           end
  end.

(** [selfMsgTester.exec(s)] for [/^_&_(.+)_&_$/], giving the captured
    group: the string opens with ["_&_"], closes with ["_&_"], and what
    stands between is not empty and holds no line terminator. *)
Definition selfMsgTester (s : string) : option string :=
  match s with
  | String "_" (String "&" (String "_" rest)) =>
      match beforeTail rest with
      | Some mid =>
          if negb (String.eqb mid "") && noLineTerminator mid
          then Some mid
          else None
      | None => None
      end
  | _ => None
  end.

(** [`_&_${message.msg}_&_`] *)
Definition selfMsg (m : string) : string := "_&_" ++ m ++ "_&_".

(** [messageSendSelf(message)] without a callback: the new [window.pageId]
    and the message that goes to [chrome.runtime.sendMessage].  [answer] is
    what the [__PAGE_ID__] request resolves to; it is asked for only while
    [window.pageId] is undefined. *)
Definition messageSendSelf (windowPageId : option PageId) (answer : PageId)
           (message : Message) : option PageId * Message :=
  let wrapped := selfMsg (msg message) in
  match windowPageId with
  | None =>
      (Some answer,
       {| msg := wrapped; pageId := Some answer; payload := payload message |})
  | Some id =>
      (Some id,
       {| msg := wrapped; pageId := Some id; payload := payload message |})
  end.

(** What the listener installed by [initServer] on the background page does
    with a message. *)
Inductive reaction : Type :=
| Ignored
| RelayedToTab (id : Z) (message : Message)    (* [chrome.tabs.sendMessage] *)
| RelayedToRuntime (message : Message)         (* [chrome.runtime.sendMessage] *)
| Responded (id : PageId).                     (* [sendResponse(getPageId(sender))] *)

Definition backgroundListener (message : option Message) (sender : Sender) : reaction :=
  match message with
  | None => Ignored
  | Some message =>
      match selfMsgTester (msg message) with
      | Some original =>
          let message := {| msg := original; pageId := pageId message;
                            payload := payload message |} in
          match tab sender with
          | Some id => RelayedToTab id message
          | None => RelayedToRuntime message
          end
      | None =>
          if String.eqb (msg message) "__PAGE_ID__"
          then Responded (getPageId sender)
          else Ignored
      end
  end.

(** Does the callback that [messageListenSelf(msg, cb)] registers call
    [cb] on [message], on a page whose [window.pageId] is [windowPageId]. *)
Definition selfListener (windowPageId : option PageId) (listened : string)
           (message : option Message) : bool :=
  match message with
  | None => false
  | Some m =>
      sameId windowPageId (pageId m)
      && (String.eqb listened "" || String.eqb (msg m) listened)
  end.

(** Does the callback that [messageListen(msg, cb)] registers call [cb]:
    [cb] itself is registered when [msg] is empty. *)
Definition listener (listened : string) (message : option Message) : bool :=
  if String.eqb listened "" then true
  else match message with
       | None => false
       | Some m => String.eqb (msg m) listened
       end.

End Messages.

Arguments msg {P} m.
Arguments pageId {P} m.
Arguments payload {P} m.
Arguments messageSendSelf {P} windowPageId answer message.
Arguments RelayedToTab {P} id message.
Arguments RelayedToRuntime {P} message.
Arguments Ignored {P}.
Arguments Responded {P} id.
Arguments backgroundListener {P} message sender.
Arguments selfListener {P} windowPageId listened message.
Arguments listener {P} listened message.

End BrowserApi.

(** ** Message listeners ([_helpers/browser-api]) *)
Module MessageBus.

(** The functions handed to [chrome.runtime.onMessage]: a callback of the
    caller, known by its identity, or one of the two wrappers made around
    it.  A wrapper is made at most once for a callback and a message name,
    so the pair names it. *)
Inductive callback : Type :=
| User (cb : nat)
| Filter (msg : string) (cb : nat)        (* calls [cb] when [message.msg === msg] *)
| SelfFilter (msg : string) (cb : nat).   (* checks [__pageId__] as well *)

Inductive call : Type :=
| AddListener (c : callback)
| RemoveListener (c : callback)
| RequestPageId.                          (* [sendMessage({msg: '__PAGE_ID__'}, ...)] *)

(** The inner [Map]: message name to registered function. *)
Definition Listeners : Type := list (string * callback).

Record Bus : Type := {
  listenerMap : list (nat * Listeners);   (* the outer [Map], by callback *)
  pageIdKnown : bool;                     (* is [window.pageId] defined *)
  calls : list call
}.

Fixpoint getListeners (cb : nat) (m : list (nat * Listeners)) : option Listeners :=
  match m with
  | [] => None
  | (k, ls) :: rest => if Nat.eqb cb k then Some ls else getListeners cb rest
  end.

Fixpoint setListeners (cb : nat) (ls : Listeners) (m : list (nat * Listeners))
  : list (nat * Listeners) :=
  match m with
  | [] => [(cb, ls)]
  | (k, ls') :: rest =>
      if Nat.eqb cb k then (k, ls) :: rest else (k, ls') :: setListeners cb ls rest
  end.

Fixpoint getCallback (msg : string) (ls : Listeners) : option callback :=
  match ls with
  | [] => None
  | (k, c) :: rest => if String.eqb msg k then Some c else getCallback msg rest
  end.

Fixpoint setCallback (msg : string) (c : callback) (ls : Listeners) : Listeners :=
  match ls with
  | [] => [(msg, c)]
  | (k, c') :: rest =>
      if String.eqb msg k then (k, c) :: rest else (k, c') :: setCallback msg c rest
  end.

(** The part [messageListen] and [messageListenSelf] share: find or make
    the inner map of [cb], find or make the function for [msg] in it, and
    hand that function to [addListener]. *)
Definition listenWith (make : string -> nat -> callback) (msg : string) (cb : nat)
           (bus : Bus) : Bus :=
  let listeners := match getListeners cb (listenerMap bus) with
                   | Some ls => ls
                   | None => []
                   end in
  let found := getCallback msg listeners in
  let callback := match found with
                  | Some c => c
                  | None => make msg cb
                  end in
  let listeners := match found with
                   | Some _ => listeners
                   | None => setCallback msg callback listeners
                   end in
  {| listenerMap := setListeners cb listeners (listenerMap bus);
     pageIdKnown := pageIdKnown bus;
     calls := calls bus ++ [AddListener callback] |}.

(** [messageListen(msg, cb)]; [messageListen(cb)] is [messageListen('', cb)]. *)
Definition messageListen (msg : string) (cb : nat) (bus : Bus) : Bus :=
  listenWith (fun msg cb => if String.eqb msg "" then User cb else Filter msg cb)
             msg cb bus.

Definition messageListenSelf (msg : string) (cb : nat) (bus : Bus) : Bus :=
  let bus := if pageIdKnown bus then bus
             else {| listenerMap := listenerMap bus;
                     pageIdKnown := pageIdKnown bus;
                     calls := calls bus ++ [RequestPageId] |} in
  listenWith SelfFilter msg cb bus.

(** [messageStopListen(listener, msg)]; [msg] is [None] when it is not a
    string. *)
Definition messageStopListen (listener : nat) (msg : option string) (bus : Bus) : Bus :=
  let removed :=
    match getListeners listener (listenerMap bus) with
    | Some listeners =>
        match msg with
        | Some msg =>
            match getCallback msg listeners with
            | Some callback => [RemoveListener callback]
            | None => []
            end
        | None => List.map (fun entry => RemoveListener (snd entry)) listeners
        end
    | None => [RemoveListener (User listener)]
    end in
  {| listenerMap := listenerMap bus;
     pageIdKnown := pageIdKnown bus;
     calls := calls bus ++ removed |}.

(** The function kept for a callback and a message name. *)
Definition kept (bus : Bus) (cb : nat) (msg : string) : option callback :=
  match getListeners cb (listenerMap bus) with
  | Some listeners => getCallback msg listeners
  | None => None
  end.

(** The calls of the listener API, to run one after the other. *)
Inductive operation : Type :=
| Listen (msg : string) (cb : nat)
| ListenSelf (msg : string) (cb : nat)
| StopListen (listener : nat) (msg : option string).

Definition perform (bus : Bus) (op : operation) : Bus :=
  match op with
  | Listen msg cb => messageListen msg cb bus
  | ListenSelf msg cb => messageListenSelf msg cb bus
  | StopListen listener msg => messageStopListen listener msg bus
  end.

Definition performAll (ops : list operation) (bus : Bus) : Bus :=
  fold_left perform ops bus.

End MessageBus.

(** A page on which nothing listens yet. *)
Definition quietBus : MessageBus.Bus :=
  {| MessageBus.listenerMap := []; MessageBus.pageIdKnown := true;
     MessageBus.calls := [] |}.

(** * Properties *)

Import Webdav SyncManager.

(** ** Host functions on concrete inputs *)

Example btoa_user_pass : btoa "user:pass" = "dXNlcjpwYXNz".
Proof. reflexivity. Qed.

Example btoa_padding : btoa "a:b1" = "YTpiMQ==" /\ btoa "Ma" = "TWE=".
Proof. split; reflexivity. Qed.

Example endsWith_saladict :
  endsWith "/dav/Saladict/" "/Saladict/" = true
  /\ endsWith "/dav/Saladict" "/Saladict/" = false
  /\ endsWith "ict/" "/Saladict/" = false.
Proof. repeat split; reflexivity. Qed.

(** ** What [dlChanged] does *)

(** Take the next [match] or [if] of the goal apart, remembering the case. *)
Ltac branch :=
  match goal with
  | |- context [match ?x with _ => _ end] =>
      lazymatch x with
      | context [match _ with _ => _ end] => fail
      | _ => destruct x eqn:?
      end
  end.

Ltac run :=
  unfold fetch_, setMeta, getMeta, getSyncConfig, getNotebook in *;
  unfold setSyncMeta, getSyncMeta, getWords in *;
  unfold tryCatch, orTypeError, orUnmodelled, log in *;
  unfold bind, ret, reject, unmodelled in *;
  simpl in *.

(** [dlChanged] touches no store: all it leaves behind is its GET on the trace. *)
Lemma dlChanged_state (w : World) (config : SyncConfig) (m : Meta) (st : State) :
  snd (dlChanged w config m st) = pushed (EvFetch (getRequest config m)) st.
Proof.
  unfold dlChanged. run.
  repeat (branch; simpl; try reflexivity).
Qed.

Lemma someLacksDate_truthy (ws : list json) :
  (forall word, In word ws -> hasTruthyDate word) ->
  someLacksDate ws = Some false.
Proof.
  induction ws as [|word rest IH]; intros Hall; simpl.
  - reflexivity.
  - destruct (Hall word (or_introl eq_refl)) as (d & Hd & Ht).
    rewrite Hd, Ht. simpl. apply IH.
    intros x Hx. apply Hall. now right.
Qed.

Lemma someLacksDate_no_null (ws : list json) :
  ~ In JNull ws -> someLacksDate ws <> None.
Proof.
  induction ws as [|word rest IH]; intros Hnn; simpl.
  - discriminate.
  - assert (Hrest : someLacksDate rest <> None)
      by (apply IH; intros H; apply Hnn; now right).
    destruct word; simpl; try discriminate; try assumption.
    + exfalso. apply Hnn. now left.
    + branch; [discriminate | assumption].
Qed.

(** When [dlChanged] hands a file back, the response was no 304, its body
    parsed to that file, the words passed the check, and against a truthy
    stored timestamp the file's own is truthy and not [<=] it. *)
Lemma dlChanged_some_inv (w : World) (config : SyncConfig) (m : Meta)
      (st : State) (f : DlResponse) :
  fst (dlChanged w config m st) = Resolved (Some f) ->
  exists resp ws,
    fetch w (getRequest config m) = Some resp
    /\ (status resp =? 304) = false
    /\ resp_json resp = Some (dl_json f)
    /\ get_prop (dl_json f) "words" = Some (Some (JArr ws))
    /\ someLacksDate ws = Some false
    /\ dl_etag f = orEmpty (header_ETag resp)
    /\ (truthy (timestamp m) = true ->
        exists ts, get_prop (dl_json f) "timestamp" = Some ts
                   /\ truthy ts = true
                   /\ js_le ts (timestamp m) = Some false).
Proof.
  unfold dlChanged. run.
  destruct (fetch w (getRequest config m)) as [resp|] eqn:Hf; simpl; [|discriminate].
  destruct (status resp =? 304) eqn:Hs; simpl; [discriminate|].
  destruct (resp_json resp) as [j|] eqn:Hj; simpl; [|discriminate].
  destruct (get_prop j "words") as [words|] eqn:Hw; simpl; [|discriminate].
  destruct words as [[| | | |ws|]|]; simpl; try discriminate.
  destruct (someLacksDate ws) as [[|]|] eqn:Hl; simpl; try discriminate.
  destruct (truthy (timestamp m)) eqn:Ht; simpl.
  - destruct (get_prop j "timestamp") as [ts|] eqn:Hts; simpl; [|discriminate].
    destruct (truthy ts) eqn:Htt; simpl; [|discriminate].
    destruct (js_le ts (timestamp m)) as [[|]|] eqn:Hle; simpl; try discriminate.
    intros H. injection H as <-. simpl.
    exists resp, ws. repeat split; auto.
    intros _. exists ts. auto.
  - intros H. injection H as <-. simpl.
    exists resp, ws. repeat split; auto. discriminate.
Qed.

(** A payload that fails the checks of [dlChanged] is reported as "no
    change": a body that is not JSON, a value (other than [null]) whose
    [words] is not an array, or an array in which the check meets a word
    without a truthy date before it meets a [null]. *)
Lemma dlChanged_invalid_payload_no_change (w : World) (config : SyncConfig)
      (m : Meta) (st : State) (resp : Response) :
  fetch w (getRequest config m) = Some resp ->
  resp_json resp = None
  \/ (exists j words, resp_json resp = Some j
        /\ get_prop j "words" = Some words /\ isArray words = false)
  \/ (exists j ws, resp_json resp = Some j
        /\ get_prop j "words" = Some (Some (JArr ws))
        /\ someLacksDate ws = Some true) ->
  dlChanged w config m st
  = (Resolved None, pushed (EvFetch (getRequest config m)) st).
Proof.
  intros Hf Hbad. unfold dlChanged. run. rewrite Hf. simpl.
  destruct (status resp =? 304); [reflexivity|].
  destruct Hbad as [Hj | [(j & words & Hj & Hw & Harr) | (j & ws & Hj & Hw & Hl)]];
    rewrite Hj; simpl; [reflexivity | |].
  - rewrite Hw. simpl.
    destruct words as [[| | | |ws|]|]; simpl in *; try reflexivity; discriminate.
  - rewrite Hw. simpl. rewrite Hl. reflexivity.
Qed.

(** A file that is not newer than a truthy stored timestamp is dropped;
    the only other way out is the [TypeError] of a [null] word. *)
Lemma dlChanged_stale (w : World) (config : SyncConfig) (m : Meta) (st : State)
      (resp : Response) (j : json) (t ft : Z) :
  timestamp m = Some (JNum t) -> t <> 0 ->
  fetch w (getRequest config m) = Some resp ->
  resp_json resp = Some j ->
  get_prop j "timestamp" = Some (Some (JNum ft)) -> ft <= t ->
  fst (dlChanged w config m st) = Resolved None
  \/ (fst (dlChanged w config m st) = Rejected TypeError
      /\ someLacksDate (wordsOf j) = None).
Proof.
  intros Hm Ht Hf Hj Hts Hle. unfold dlChanged, wordsOf. run.
  rewrite Hf. simpl.
  destruct (status resp =? 304); [now left|].
  rewrite Hj. simpl.
  destruct (get_prop j "words") as [words|] eqn:Hw; simpl.
  2:{ destruct j; simpl in *; discriminate. }
  destruct words as [[| | | |ws|]|]; simpl; try now left.
  destruct (someLacksDate ws) as [[|]|] eqn:Hl; simpl; [now left | | now right].
  rewrite Hm, Hts. simpl.
  assert (Hz : (t =? 0) = false) by now apply Z.eqb_neq.
  rewrite Hz. simpl.
  destruct (ft =? 0); simpl; [now left|].
  assert (Hb : (ft <=? t) = true) by now apply Z.leb_le.
  rewrite Hb. now left.
Qed.

(** A well-formed file that is newer than the stored timestamp, or that
    meets no truthy stored timestamp, is handed back with the ETag. *)
Lemma dlChanged_fresh (w : World) (config : SyncConfig) (m : Meta) (st : State)
      (resp : Response) (j : json) (ws : list json) (ts : jsval) :
  fetch w (getRequest config m) = Some resp ->
  status resp <> 304 ->
  resp_json resp = Some j ->
  get_prop j "words" = Some (Some (JArr ws)) ->
  (forall word, In word ws -> hasTruthyDate word) ->
  get_prop j "timestamp" = Some ts ->
  truthy (timestamp m) = false
  \/ (exists t ft, timestamp m = Some (JNum t) /\ ts = Some (JNum ft)
                   /\ ft <> 0 /\ t < ft) ->
  fst (dlChanged w config m st)
  = Resolved (Some {| dl_json := j; dl_etag := orEmpty (header_ETag resp) |}).
Proof.
  intros Hf Hs Hj Hw Hd Hts Hnew. unfold dlChanged. run.
  rewrite Hf. simpl.
  apply Z.eqb_neq in Hs. rewrite Hs, Hj. simpl.
  rewrite Hw. simpl.
  rewrite (someLacksDate_truthy ws Hd). simpl.
  destruct Hnew as [Hfalsy | (t & ft & Hm & -> & Hft & Hlt)].
  - rewrite Hfalsy. reflexivity.
  - rewrite Hm, Hts. simpl.
    apply Z.eqb_neq in Hft. rewrite Hft.
    destruct (t =? 0); simpl; [reflexivity|].
    assert (Hb : (ft <=? t) = false) by (apply Z.leb_gt; lia).
    rewrite Hb. reflexivity.
Qed.

(** ** What [download] does with the answer of [dlChanged] *)

Lemma dlChanged_pair (w : World) (config : SyncConfig) (m : Meta) (st : State) :
  dlChanged w config m st
  = (fst (dlChanged w config m st), pushed (EvFetch (getRequest config m)) st).
Proof.
  rewrite <- (dlChanged_state w). apply surjective_pairing.
Qed.

Lemma download_no_change (w : World) (config : SyncConfig) (st : State) :
  fst (dlChanged w config (storedOrEmpty st) st) = Resolved None ->
  download w config st
  = (Resolved tt, pushed (EvFetch (getRequest config (storedOrEmpty st))) st).
Proof.
  intros H. unfold download, storedOrEmpty, orEmptyMeta in *. run.
  rewrite dlChanged_pair, H. reflexivity.
Qed.

Lemma download_rejected (w : World) (config : SyncConfig) (st : State) (e : error) :
  fst (dlChanged w config (storedOrEmpty st) st) = Rejected e ->
  download w config st
  = (Rejected e, pushed (EvFetch (getRequest config (storedOrEmpty st))) st).
Proof.
  intros H. unfold download, storedOrEmpty, orEmptyMeta in *. run.
  rewrite dlChanged_pair, H. reflexivity.
Qed.

Lemma download_applied (w : World) (config : SyncConfig) (st : State)
      (f : DlResponse) (ts : jsval) (ws : list json) :
  fst (dlChanged w config (storedOrEmpty st) st) = Resolved (Some f) ->
  get_prop (dl_json f) "timestamp" = Some ts ->
  get_prop (dl_json f) "words" = Some (Some (JArr ws)) ->
  download w config st
  = (if storeAccepts w ws then Resolved tt else Rejected StoreFailed,
     appliedState w config st {| etag := Some (dl_etag f); timestamp := ts |} ws).
Proof.
  intros H Hts Hw.
  unfold download, appliedState, storedOrEmpty, orEmptyMeta in *.
  unfold setNotebook, saveWords in *. run.
  rewrite dlChanged_pair, H. simpl.
  rewrite Hts. simpl. rewrite Hw. simpl.
  destruct (storeAccepts w ws); reflexivity.
Qed.

Lemma issued_app (st st' : State) (evs : list event) :
  trace st' = (trace st ++ evs)%list -> issued st st' = evs.
Proof.
  unfold issued. intros ->.
  induction (trace st) as [|e l IH]; simpl; auto.
Qed.

Lemma get_prop_total (j : json) (k k' : string) (v : json) :
  get_prop j k = Some (Some v) -> exists v', get_prop j k' = Some v'.
Proof.
  destruct j; simpl; try discriminate; eauto.
Qed.

(** ** The download cycle *)

(** C4 (as amended): for every stored Meta whose timestamp [t] is a non-zero
    number and every downloaded file whose timestamp is [<= t], the download
    cycle applies nothing: Meta and the Notebook Store are left exactly as
    they were, the only host call is the GET, and the cycle returns normally
    (provided no word of the file is [null]). *)
Theorem download_stale_not_applied (w : World) (config : SyncConfig) (st : State)
        (m : Meta) (t ft : Z) (resp : Response) (j : json) :
  meta st = Some m ->
  timestamp m = Some (JNum t) ->
  t <> 0 ->
  fetch w (getRequest config m) = Some resp ->
  resp_json resp = Some j ->
  get_prop j "timestamp" = Some (Some (JNum ft)) ->
  ft <= t ->
  let st' := snd (download w config st) in
  meta st' = meta st
  /\ notebook st' = notebook st
  /\ issued st st' = [EvFetch (getRequest config m)]
  /\ (~ In JNull (wordsOf j) -> fst (download w config st) = Resolved tt).
Proof.
  intros Hst Hm Ht Hf Hj Hts Hle.
  assert (Hsm : storedOrEmpty st = m) by (unfold storedOrEmpty; now rewrite Hst).
  destruct (dlChanged_stale w config m st resp j t ft Hm Ht Hf Hj Hts Hle)
    as [Hnone | [Herr Hnull]]; rewrite <- Hsm in *.
  - rewrite (download_no_change w config st Hnone). simpl.
    repeat split; auto. now apply issued_app.
  - rewrite (download_rejected w config st TypeError Herr). simpl.
    repeat split; auto.
    + now apply issued_app.
    + intros Hnn. now apply someLacksDate_no_null in Hnn.
Qed.

(** The scenario of the specification: Meta [{timestamp: 1000}] and a remote
    file [{timestamp: 1000, words: [...]}]. *)
Lemma download_stale_not_applied_witness :
  let j := Samples.file 1000 [Samples.word 1] in
  let resp := Samples.response 200 (Some "e1") (Some j) in
  let w := Samples.world [] (Some resp) true in
  let m := {| etag := None; timestamp := Some (JNum 1000) |} in
  let st := Samples.store (Some m) [Samples.word 3] in
  let st' := snd (download w Samples.config st) in
  (meta st = Some m
   /\ timestamp m = Some (JNum 1000)
   /\ 1000 <> 0
   /\ fetch w (getRequest Samples.config m) = Some resp
   /\ resp_json resp = Some j
   /\ get_prop j "timestamp" = Some (Some (JNum 1000))
   /\ 1000 <= 1000)
  /\ meta st' = meta st
  /\ notebook st' = notebook st
  /\ issued st st' = [EvFetch (getRequest Samples.config m)]
  /\ (~ In JNull (wordsOf j) -> fst (download w Samples.config st) = Resolved tt).
Proof.
  intros j resp w m st.
  split; [repeat split; try reflexivity; lia|].
  apply (download_stale_not_applied w Samples.config st m 1000 1000 resp j);
    try reflexivity; lia.
Defined.

(** C4, as stated, fails at the stored timestamp 0: [if (meta.timestamp)]
    takes 0 for "no timestamp", so a file with timestamp [0 <= 0] is applied;
    Meta and the Notebook Store both change. *)
Lemma download_zero_timestamp_applied :
  let w := Samples.world []
             (Some (Samples.response 200 (Some "e1")
                      (Some (Samples.file 0 [Samples.word 1])))) true in
  let m := {| etag := None; timestamp := Some (JNum 0) |} in
  let st := Samples.store (Some m) [] in
  let st' := snd (download w Samples.config st) in
  meta st = Some m
  /\ get_prop (Samples.file 0 [Samples.word 1]) "timestamp" = Some (Some (JNum 0))
  /\ 0 <= 0
  /\ fst (download w Samples.config st) = Resolved tt
  /\ meta st' = Some {| etag := Some "e1"; timestamp := Some (JNum 0) |}
  /\ meta st' <> meta st
  /\ notebook st = []
  /\ notebook st' = [Samples.word 1].
Proof.
  cbv zeta. repeat split; try reflexivity; try discriminate.
Qed.

(** C5 (as amended): a file delivered by a response other than 304, whose
    words are an array in which every word has a truthy date, and whose
    timestamp is a non-zero number strictly greater than the stored numeric
    timestamp (or that meets no truthy stored timestamp: none stored, or 0),
    is applied: Meta is overwritten to exactly [{timestamp: file.timestamp,
    etag: e}], [e] being the ETag header or the empty string, and then the
    Notebook Store is handed [file.words], which it holds afterwards if it
    accepts the write. *)
Theorem download_newer_applied (w : World) (config : SyncConfig) (st : State)
        (resp : Response) (j : json) (ws : list json) (ts : jsval) :
  fetch w (getRequest config (storedOrEmpty st)) = Some resp ->
  status resp <> 304 ->
  resp_json resp = Some j ->
  get_prop j "words" = Some (Some (JArr ws)) ->
  (forall word, In word ws -> hasTruthyDate word) ->
  get_prop j "timestamp" = Some ts ->
  truthy (timestamp (storedOrEmpty st)) = false
  \/ (exists t ft, timestamp (storedOrEmpty st) = Some (JNum t)
                   /\ ts = Some (JNum ft) /\ ft <> 0 /\ t < ft) ->
  let m' := {| etag := Some (orEmpty (header_ETag resp)); timestamp := ts |} in
  let st' := snd (download w config st) in
  meta st' = Some m'
  /\ issued st st'
     = [EvFetch (getRequest config (storedOrEmpty st)); EvSetMeta m'; EvSaveWords ws]
  /\ (storeAccepts w ws = true ->
      fst (download w config st) = Resolved tt /\ notebook st' = ws).
Proof.
  intros Hf Hs Hj Hw Hd Hts Hnew.
  pose proof (dlChanged_fresh w config (storedOrEmpty st) st resp j ws ts
                Hf Hs Hj Hw Hd Hts Hnew) as Hdl.
  rewrite (download_applied w config st _ ts ws Hdl Hts Hw).
  unfold appliedState. simpl.
  destruct (storeAccepts w ws) eqn:Hsave; simpl; repeat split;
    try discriminate; try reflexivity;
    apply issued_app; simpl; rewrite <- !app_assoc; reflexivity.
Qed.

(** The scenario of the specification: no Meta, a remote file
    [{timestamp: 500, words: [{date: 1}]}], and a server that sends no ETag. *)
Lemma download_newer_applied_witness :
  let j := Samples.file 500 [Samples.word 1] in
  let resp := Samples.response 200 None (Some j) in
  let w := Samples.world [] (Some resp) true in
  let st := Samples.store None [] in
  let m' := {| etag := Some ""; timestamp := Some (JNum 500) |} in
  let st' := snd (download w Samples.config st) in
  (fetch w (getRequest Samples.config (storedOrEmpty st)) = Some resp
   /\ status resp <> 304
   /\ resp_json resp = Some j
   /\ get_prop j "words" = Some (Some (JArr [Samples.word 1]))
   /\ (forall word, In word [Samples.word 1] -> hasTruthyDate word)
   /\ get_prop j "timestamp" = Some (Some (JNum 500))
   /\ truthy (timestamp (storedOrEmpty st)) = false)
  /\ meta st' = Some m'
  /\ issued st st'
     = [EvFetch (getRequest Samples.config emptyMeta); EvSetMeta m';
        EvSaveWords [Samples.word 1]]
  /\ (storeAccepts w [Samples.word 1] = true ->
      fst (download w Samples.config st) = Resolved tt
      /\ notebook st' = [Samples.word 1]).
Proof.
  intros j resp w st.
  assert (Hdates : forall word, In word [Samples.word 1] -> hasTruthyDate word).
  { intros word [<- | []]. exists (Some (JNum 1)). split; reflexivity. }
  split; [repeat split; try reflexivity; try exact Hdates; discriminate|].
  apply (download_newer_applied w Samples.config st resp j
           [Samples.word 1] (Some (JNum 500)));
    try reflexivity; try exact Hdates; try discriminate.
  left. reflexivity.
Defined.

(** C5, as stated, fails on a word whose date is present but falsy: with no
    Meta stored, the file [{timestamp: 500, words: [{date: 0}]}] is a
    words array in which every word has a date, yet nothing is applied. *)
Lemma download_zero_date_not_applied :
  let f := Samples.file 500 [Samples.word 0] in
  let w := Samples.world [] (Some (Samples.response 200 (Some "e1") (Some f))) true in
  let st := Samples.store None [] in
  let st' := snd (download w Samples.config st) in
  meta st = None
  /\ get_prop f "words" = Some (Some (JArr [Samples.word 0]))
  /\ (forall word, In word [Samples.word 0] -> hasDateField word)
  /\ get_prop f "timestamp" = Some (Some (JNum 500))
  /\ fst (download w Samples.config st) = Resolved tt
  /\ meta st' = None
  /\ notebook st' = []
  /\ issued st st' = [EvFetch (getRequest Samples.config emptyMeta)].
Proof.
  cbv zeta. repeat split; try reflexivity.
  intros word [<- | []]. exists (JNum 0). reflexivity.
Qed.

(** C7, at its failing input: the body [{timestamp: 500, words: [null]}]
    parses, and its only word lacks a date, yet [dlChanged] does not report
    "no change": reading [w.date] on [null] throws, the promise of
    [dlChanged] is rejected with the TypeError and [download] passes the
    rejection on to its caller.  Meta and the Notebook Store stay untouched. *)
Theorem dlChanged_null_word_rejects :
  let f := Samples.file 500 [JNull] in
  let w := Samples.world [] (Some (Samples.response 200 (Some "e1") (Some f))) true in
  let st := Samples.store None [Samples.word 3] in
  get_prop f "words" = Some (Some (JArr [JNull]))
  /\ (forall d, get_prop JNull "date" <> Some (Some d))
  /\ fst (dlChanged w Samples.config emptyMeta st) = Rejected TypeError
  /\ fst (download w Samples.config st) = Rejected TypeError
  /\ meta (snd (download w Samples.config st)) = meta st
  /\ notebook (snd (download w Samples.config st)) = notebook st.
Proof.
  cbv zeta. repeat split; try reflexivity. intros d. discriminate.
Qed.

(** C9: in every applied download cycle the meta write is issued, and takes
    effect, before the notebook write is issued; when the Notebook Store
    refuses the write the cycle is rejected with the new [{timestamp, etag}]
    already in Meta and the local words unchanged. *)
Theorem download_meta_before_notebook (w : World) (config : SyncConfig)
        (st : State) (f : DlResponse) :
  fst (dlChanged w config (storedOrEmpty st) st) = Resolved (Some f) ->
  exists ts,
    get_prop (dl_json f) "timestamp" = Some ts
    /\ let m' := {| etag := Some (dl_etag f); timestamp := ts |} in
       let ws := wordsOf (dl_json f) in
       let st' := snd (download w config st) in
       issued st st'
       = [EvFetch (getRequest config (storedOrEmpty st)); EvSetMeta m'; EvSaveWords ws]
       /\ meta st' = Some m'
       /\ (storeAccepts w ws = false ->
           fst (download w config st) = Rejected StoreFailed
           /\ notebook st' = notebook st).
Proof.
  intros Hdl.
  destruct (dlChanged_some_inv w config _ st f Hdl)
    as (resp & ws & _ & _ & _ & Hw & _).
  destruct (get_prop_total (dl_json f) "words" "timestamp" _ Hw) as (ts & Hts).
  exists ts. split; [exact Hts|].
  assert (Hws : wordsOf (dl_json f) = ws) by (unfold wordsOf; now rewrite Hw).
  cbv zeta. rewrite Hws.
  rewrite (download_applied w config st f ts ws Hdl Hts Hw).
  unfold appliedState. simpl.
  destruct (storeAccepts w ws) eqn:Hsave; simpl; repeat split;
    try discriminate; try reflexivity;
    apply issued_app; simpl; rewrite <- !app_assoc; reflexivity.
Qed.

(** A store that refuses the notebook write, under a newer remote file. *)
Lemma download_meta_before_notebook_witness :
  let j := Samples.file 500 [Samples.word 1] in
  let w := Samples.world [] (Some (Samples.response 200 (Some "e1") (Some j))) false in
  let st := Samples.store None [Samples.word 3] in
  let f := {| dl_json := j; dl_etag := "e1" |} in
  fst (dlChanged w Samples.config (storedOrEmpty st) st) = Resolved (Some f)
  /\ exists ts,
       get_prop j "timestamp" = Some ts
       /\ let m' := {| etag := Some "e1"; timestamp := ts |} in
          let st' := snd (download w Samples.config st) in
          issued st st'
          = [EvFetch (getRequest Samples.config emptyMeta); EvSetMeta m';
             EvSaveWords (wordsOf j)]
          /\ meta st' = Some m'
          /\ (storeAccepts w (wordsOf j) = false ->
              fst (download w Samples.config st) = Rejected StoreFailed
              /\ notebook st' = notebook st).
Proof.
  intros j w st f.
  split; [reflexivity|].
  apply (download_meta_before_notebook w Samples.config st f).
  reflexivity.
Defined.

(** ** Initialisation of the server *)

Lemma js_gt_after_le (mt ts : jsval) :
  js_le ts mt = Some false -> js_gt mt ts = Some false.
Proof.
  destruct ts as [[| |ft| | |]|], mt as [[| |t| | |]|]; simpl; try discriminate.
  intros H. injection H as H. f_equal.
  apply Z.leb_gt in H. unfold Z.gtb. destruct (t ?= ft) eqn:Hc; auto.
  apply Z.compare_gt_iff in Hc. lia.
Qed.

(** [dlChanged] is only ever rejected by a failed fetch or a [TypeError]. *)
Lemma dlChanged_rejections (w : World) (config : SyncConfig) (m : Meta)
      (st : State) (e : error) :
  fst (dlChanged w config m st) = Rejected e -> e = FetchFailed \/ e = TypeError.
Proof.
  unfold dlChanged. run.
  repeat (branch; simpl; try discriminate);
    intros H; injection H as <-; auto.
Qed.

(** No run of [initServer] is rejected with ["exist"]: against a truthy
    stored timestamp [dlChanged] only hands back files that are not [<=] it,
    so the test [meta.timestamp > file.json.timestamp] never succeeds. *)
Lemma initServer_never_exist (w : World) (config : SyncConfig) (st : State) :
  fst (initServer w config st) <> Rejected (Reason "exist").
Proof.
  unfold initServer. run.
  destruct (fetch w (propfindRequest config)) as [r|]; simpl; [|discriminate].
  destruct (resp_text r) as [text|]; simpl; [|discriminate].
  destruct (parseFromString w text) as [doc|]; simpl; [|discriminate].
  destruct (some isSaladict doc); simpl.
  - destruct (meta st) as [m|]; simpl; [|discriminate].
    destruct (truthy (timestamp m)) eqn:Ht; simpl; [|discriminate].
    rewrite dlChanged_pair.
    destruct (fst (dlChanged w config m
                     (pushed (EvFetch (propfindRequest config)) st)))
      as [[f|]|e|] eqn:Hdl; simpl; try discriminate.
    + destruct (dlChanged_some_inv w config m _ f Hdl)
        as (resp & ws & _ & _ & _ & _ & _ & _ & Hts).
      destruct (Hts Ht) as (ts & Hget & _ & Hle).
      rewrite Hget. simpl.
      rewrite (js_gt_after_le _ _ Hle). simpl. discriminate.
    + destruct (dlChanged_rejections w config m _ e Hdl) as [-> | ->]; discriminate.
  - destruct (fetch w (mkcolRequest config)) as [r'|]; simpl; [|discriminate].
    destruct (ok r'); simpl; discriminate.
Qed.

(** No run of [initServer] is rejected with ["dir"]: the promise made by
    [Promise.reject('dir')] is the return value of the callback of [some],
    where it only counts as a truthy answer. *)
Lemma initServer_never_dir (w : World) (config : SyncConfig) (st : State) :
  fst (initServer w config st) <> Rejected (Reason "dir").
Proof.
  unfold initServer. run.
  destruct (fetch w (propfindRequest config)) as [r|]; simpl; [|discriminate].
  destruct (resp_text r) as [text|]; simpl; [|discriminate].
  destruct (parseFromString w text) as [doc|]; simpl; [|discriminate].
  destruct (some isSaladict doc); simpl.
  - destruct (meta st) as [m|]; simpl; [|discriminate].
    destruct (truthy (timestamp m)) eqn:Ht; simpl; [|discriminate].
    rewrite dlChanged_pair.
    destruct (fst (dlChanged w config m
                     (pushed (EvFetch (propfindRequest config)) st)))
      as [[f|]|e|] eqn:Hdl; simpl; try discriminate.
    + repeat (branch; simpl; try discriminate).
    + destruct (dlChanged_rejections w config m _ e Hdl) as [-> | ->]; discriminate.
  - destruct (fetch w (mkcolRequest config)) as [r'|]; simpl; [|discriminate].
    destruct (ok r'); simpl; discriminate.
Qed.

(** When [Saladict/] is listed, collection or not, no MKCOL is issued. *)
Lemma initServer_listed_no_mkcol (w : World) (config : SyncConfig) (st : State)
      (doc : Document) (r : Response) (text : string) :
  fetch w (propfindRequest config) = Some r ->
  resp_text r = Some text ->
  parseFromString w text = Some doc ->
  some isSaladict doc = true ->
  ~ In (EvFetch (mkcolRequest config)) (issued st (snd (initServer w config st))).
Proof.
  intros Hf Ht Hp Hs. unfold initServer. run.
  rewrite Hf. simpl. rewrite Ht. simpl. rewrite Hp. simpl. rewrite Hs. simpl.
  destruct (meta st) as [m|]; simpl;
    [destruct (truthy (timestamp m)); simpl|].
  - rewrite dlChanged_pair.
    match goal with
    | |- ~ In _ ?l =>
        assert (E : l = [EvFetch (propfindRequest config);
                         EvFetch (getRequest config m)])
    end.
    { repeat (branch; simpl); apply issued_app; simpl;
        rewrite <- app_assoc; reflexivity. }
    rewrite E. intros [H | [H | []]]; discriminate.
  - rewrite (issued_app st _ [EvFetch (propfindRequest config)]) by reflexivity.
    intros [H | []]; discriminate.
  - rewrite (issued_app st _ [EvFetch (propfindRequest config)]) by reflexivity.
    intros [H | []]; discriminate.
Qed.

(** C1, at its failing input: [Saladict/] is listed as a collection, the
    stored Meta is [{timestamp: 1000}] and the conditional GET is answered
    with the file [{timestamp: 500, words: [{date: 1}]}], older than the
    stored timestamp.  [dlChanged] keeps that file for itself (it reports
    "no change"), so the test marked "local is newer" in [initServer] never
    sees it: the initialisation resolves instead of being rejected with
    ["exist"]. *)
Theorem initServer_older_remote_resolves :
  let f := Samples.file 500 [Samples.word 1] in
  let resp := Samples.response 200 (Some "e1") (Some f) in
  let w := Samples.world Samples.docCollection (Some resp) true in
  let m := {| etag := None; timestamp := Some (JNum 1000) |} in
  let st := Samples.store (Some m) [Samples.word 3] in
  some isSaladict Samples.docCollection = true
  /\ meta st = Some m
  /\ fetch w (getRequest Samples.config m) = Some resp
  /\ get_prop f "timestamp" = Some (Some (JNum 500))
  /\ 500 < 1000
  /\ issued st (snd (initServer w Samples.config st))
     = [EvFetch (propfindRequest Samples.config);
        EvFetch (getRequest Samples.config m)]
  /\ fst (dlChanged w Samples.config m st) = Resolved None
  /\ fst (initServer w Samples.config st) = Resolved tt.
Proof.
  cbv zeta. repeat split; reflexivity.
Qed.

(** C2, at its failing input: the PROPFIND answer lists [/dav/Saladict/] as
    a resource that is not a collection and no Meta is stored.  No MKCOL is
    issued, but the initialisation resolves: it is not rejected with
    ["dir"]. *)
Theorem initServer_non_collection_resolves :
  let w := Samples.world Samples.docPlainFile None true in
  let st := Samples.store None [] in
  isSaladict {| href := Some "/dav/Saladict/"; collection := false |}
  = CbRejectedPromise "dir"
  /\ some isSaladict Samples.docPlainFile = true
  /\ issued st (snd (initServer w Samples.config st))
     = [EvFetch (propfindRequest Samples.config)]
  /\ fst (initServer w Samples.config st) = Resolved tt
  /\ fst (initServer w Samples.config st) <> Rejected (Reason "dir").
Proof.
  cbv zeta. repeat split; try reflexivity. discriminate.
Qed.

(** ** The Authorization header *)

(** The PUT, the conditional GET and the PROPFIND carry
    [Authorization: Basic base64(user:passwd)]. *)
Lemma requests_authorized (config : SyncConfig) (m : Meta) (text : string) :
  let auth := ("Authorization",
               "Basic " ++ btoa (user config ++ ":" ++ passwd config)) in
  In auth (headers (putRequest config text))
  /\ In auth (headers (getRequest config m))
  /\ In auth (headers (propfindRequest config)).
Proof.
  simpl. unfold dlHeaders, authorization. simpl. auto.
Qed.

(** The requests of a run of [initServer]: the PROPFIND, then at most one
    of the MKCOL and the conditional GET. *)
Lemma initServer_requests (w : World) (config : SyncConfig) (st : State) :
  let evs := issued st (snd (initServer w config st)) in
  evs = [EvFetch (propfindRequest config)]
  \/ evs = [EvFetch (propfindRequest config); EvFetch (mkcolRequest config)]
  \/ exists m, meta st = Some m
               /\ evs = [EvFetch (propfindRequest config);
                         EvFetch (getRequest config m)].
Proof.
  unfold initServer. run.
  assert (H1 : forall st', trace st' = (trace st ++ [EvFetch (propfindRequest config)])%list ->
               issued st st' = [EvFetch (propfindRequest config)])
    by (intros st' H; now apply issued_app).
  assert (H2 : forall r st',
               trace st' = ((trace st ++ [EvFetch (propfindRequest config)]) ++ [EvFetch r])%list ->
               issued st st' = [EvFetch (propfindRequest config); EvFetch r])
    by (intros r st' H; apply issued_app; rewrite H, <- app_assoc; reflexivity).
  destruct (fetch w (propfindRequest config)) as [r|]; simpl; [|left; now apply H1].
  destruct (resp_text r) as [text|]; simpl; [|left; now apply H1].
  destruct (parseFromString w text) as [doc|]; simpl; [|left; now apply H1].
  destruct (some isSaladict doc); simpl.
  - destruct (meta st) as [m|] eqn:Hmeta; simpl; [|left; now apply H1].
    destruct (truthy (timestamp m)); simpl; [|left; now apply H1].
    right. right. exists m. split; [reflexivity|].
    rewrite dlChanged_pair.
    repeat (branch; simpl); now apply H2.
  - right. left.
    destruct (fetch w (mkcolRequest config)) as [r'|]; simpl; [|now apply H2].
    destruct (ok r'); simpl; now apply H2.
Qed.

(** Every request of the adapter other than the MKCOL carries the
    Authorization header. *)
Lemma adapter_requests_authorized (w : World) (config : SyncConfig) (st : State)
      (m : Meta) (text : string) (r : Request) :
  In (EvFetch r) (issued st (snd (upload w config text st)))
  \/ In (EvFetch r) (issued st (snd (dlChanged w config m st)))
  \/ In (EvFetch r) (issued st (snd (initServer w config st))) ->
  r = mkcolRequest config
  \/ In ("Authorization", "Basic " ++ btoa (user config ++ ":" ++ passwd config))
        (headers r).
Proof.
  intros [H | [H | H]].
  - right. revert H. unfold upload. run.
    rewrite (issued_app st _ [EvFetch (putRequest config text)])
      by (destruct (fetch w (putRequest config text)); reflexivity).
    intros [H | []]. injection H as <-. now left.
  - right. revert H. rewrite dlChanged_state.
    rewrite (issued_app st _ [EvFetch (getRequest config m)]) by reflexivity.
    intros [H | []]. injection H as <-. now left.
  - destruct (initServer_requests w config st) as [E | [E | (m' & _ & E)]];
      cbv zeta in E; rewrite E in H; simpl in H.
    + destruct H as [H | []]. injection H as <-. right. now left.
    + destruct H as [H | [H | []]]; injection H as <-; [right | left]; auto.
      now left.
    + destruct H as [H | [H | []]]; injection H as <-; right; now left.
Qed.

(** C3, at its failing input: against a server that does not list
    [Saladict/], [initServer] issues the PROPFIND with the Authorization
    header and then the MKCOL with no header at all. *)
Theorem initServer_mkcol_unauthorized :
  let w := Samples.world Samples.docMissing None true in
  let st := Samples.store None [] in
  issued st (snd (initServer w Samples.config st))
  = [EvFetch (propfindRequest Samples.config);
     EvFetch (mkcolRequest Samples.config)]
  /\ In ("Authorization", "Basic " ++ btoa "user:pass")
        (headers (propfindRequest Samples.config))
  /\ method (mkcolRequest Samples.config) = "MKCOL"
  /\ headers (mkcolRequest Samples.config) = []
  /\ fst (initServer w Samples.config st) = Resolved tt.
Proof.
  cbv zeta. repeat split; try reflexivity. simpl. auto.
Qed.

(** ** Upload *)

Lemma download_unmodelled (w : World) (config : SyncConfig) (st : State) :
  fst (dlChanged w config (storedOrEmpty st) st) = Unmodelled ->
  download w config st
  = (Unmodelled, pushed (EvFetch (getRequest config (storedOrEmpty st))) st).
Proof.
  intros H. unfold download, storedOrEmpty, orEmptyMeta in *. run.
  rewrite dlChanged_pair, H. reflexivity.
Qed.

(** Whatever [download] does, it leaves the configuration alone, its first
    host call is the conditional GET and it makes no other request. *)
Lemma download_shape (w : World) (config : SyncConfig) (st : State) :
  let st' := snd (download w config st) in
  syncConfig st' = syncConfig st
  /\ exists evs,
       trace st'
       = (trace st ++ EvFetch (getRequest config (storedOrEmpty st)) :: evs)%list
       /\ forall r, ~ In (EvFetch r) evs.
Proof.
  destruct (fst (dlChanged w config (storedOrEmpty st) st)) as [[f|]|e|] eqn:Hdl.
  - destruct (dlChanged_some_inv w config _ st f Hdl)
      as (resp & ws & _ & _ & _ & Hw & _).
    destruct (get_prop_total (dl_json f) "words" "timestamp" _ Hw) as (ts & Hts).
    rewrite (download_applied w config st f ts ws Hdl Hts Hw).
    unfold appliedState. simpl.
    split; [destruct (storeAccepts w ws); reflexivity|].
    exists [EvSetMeta {| etag := Some (dl_etag f); timestamp := ts |}; EvSaveWords ws].
    split.
    + destruct (storeAccepts w ws); simpl; rewrite <- !app_assoc; reflexivity.
    + intros r [H | [H | []]]; discriminate.
  - rewrite (download_no_change w config st Hdl). simpl.
    split; [reflexivity|]. exists []. split; [reflexivity | intros r []].
  - rewrite (download_rejected w config st e Hdl). simpl.
    split; [reflexivity|]. exists []. split; [reflexivity | intros r []].
  - rewrite (download_unmodelled w config st Hdl). simpl.
    split; [reflexivity|]. exists []. split; [reflexivity | intros r []].
Qed.

Lemma issued_pushed (st st1 : State) (evs more : list event) :
  trace st1 = (trace st ++ evs)%list ->
  forall st2, trace st2 = (trace st1 ++ more)%list ->
  issued st st2 = (evs ++ more)%list.
Proof.
  intros H1 st2 H2. apply issued_app. rewrite H2, H1, app_assoc. reflexivity.
Qed.

(** [download] never reads the clock. *)
Lemma download_ticks (w : World) (config : SyncConfig) (st : State) :
  ticks (snd (download w config st)) = ticks st.
Proof.
  destruct (fst (dlChanged w config (storedOrEmpty st) st)) as [[f|]|e|] eqn:Hdl.
  - destruct (dlChanged_some_inv w config _ st f Hdl)
      as (resp & ws & _ & _ & _ & Hw & _).
    destruct (get_prop_total (dl_json f) "words" "timestamp" _ Hw) as (ts & Hts).
    rewrite (download_applied w config st f ts ws Hdl Hts Hw).
    unfold appliedState. simpl. destruct (storeAccepts w ws); reflexivity.
  - now rewrite (download_no_change w config st Hdl).
  - now rewrite (download_rejected w config st e Hdl).
  - now rewrite (download_unmodelled w config st Hdl).
Qed.

(** A PUT on the trace of [syncServiceUpload] pins the whole run down: a
    configuration was stored, the download cycle resolved, the notebook it
    left was not empty and was serialised with the one reading [T] of
    [Date.now()], and what follows depends on the answer to that PUT alone. *)
Lemma syncServiceUpload_put (w : World) (st : State) (req : Request) :
  In (EvFetch req) (issued st (snd (syncServiceUpload w st))) ->
  method req = "PUT" ->
  exists config text,
    let T := Date_now w (ticks st) in
    syncConfig st = Some config
    /\ req = putRequest config text
    /\ fst (download w config st) = Resolved tt
    /\ JSON_stringify w T (notebook (snd (download w config st))) = Some text
    /\ syncServiceUpload w st
       = let st1 := pushed (EvFetch req) (ticked (snd (download w config st))) in
         match fetch w req with
         | None => (Rejected FetchFailed, st1)
         | Some resp =>
             if ok resp
             then let m := {| etag := Some ""; timestamp := Some (JNum T) |} in
                  (Resolved tt, withMeta m (pushed (EvSetMeta m) st1))
             else (Resolved tt, st1)
         end.
Proof.
  unfold syncServiceUpload, upload, now. run.
  destruct (syncConfig st) as [config|] eqn:Hcfg; simpl.
  2:{ rewrite (issued_app st st []) by (now rewrite app_nil_r). intros []. }
  destruct (download_shape w config st) as (_ & evs & Htr & Hnf).
  pose proof (download_ticks w config st) as Htk.
  destruct (download w config st) as [o st1] eqn:Hd. simpl in *.
  assert (Hget : forall more,
             In (EvFetch req) (EvFetch (getRequest config (storedOrEmpty st)) :: evs ++ more) ->
             method req = "PUT" -> In (EvFetch req) more).
  { intros more [H | H] Hm.
    - injection H as <-. discriminate.
    - apply in_app_or in H. destruct H as [H | H]; [now apply Hnf in H | exact H]. }
  assert (Hstop : forall st2, trace st2 = trace st1 ->
             In (EvFetch req) (issued st st2) -> method req = "PUT" -> False).
  { intros st2 Hst2 Hin Hm.
    rewrite (issued_app st st2 (EvFetch (getRequest config (storedOrEmpty st)) :: evs))
      in Hin by (now rewrite Hst2).
    rewrite <- (app_nil_r evs) in Hin. apply Hget in Hin; [destruct Hin | exact Hm]. }
  destruct o as [[]|e|]; simpl;
    try (intros Hin Hm; exfalso; exact (Hstop _ eq_refl Hin Hm)).
  destruct (List.length (notebook st1) <=? 0)%nat; simpl;
    [intros Hin Hm; exfalso; exact (Hstop _ eq_refl Hin Hm)|].
  rewrite Htk.
  destruct (JSON_stringify w (Date_now w (ticks st)) (notebook st1))
    as [text|] eqn:Hjs; simpl;
    [|intros Hin Hm; exfalso; exact (Hstop _ eq_refl Hin Hm)].
  intros Hin Hm.
  assert (Hreq : req = putRequest config text).
  { destruct (fetch w (putRequest config text)) as [resp|]; simpl in Hin;
      [destruct (ok resp); simpl in Hin|].
    - rewrite (issued_pushed st st1 _
                 [EvFetch (putRequest config text);
                  EvSetMeta {| etag := Some "";
                               timestamp := Some (JNum (Date_now w (ticks st))) |}]
                 Htr) in Hin
        by (simpl; rewrite <- app_assoc; reflexivity).
      apply Hget in Hin; [|exact Hm].
      destruct Hin as [H | [H | []]]; [now injection H | discriminate].
    - rewrite (issued_pushed st st1 _ [EvFetch (putRequest config text)] Htr) in Hin
        by reflexivity.
      apply Hget in Hin; [|exact Hm].
      destruct Hin as [H | []]. now injection H.
    - rewrite (issued_pushed st st1 _ [EvFetch (putRequest config text)] Htr) in Hin
        by reflexivity.
      apply Hget in Hin; [|exact Hm].
      destruct Hin as [H | []]. now injection H. }
  subst req. exists config, text. rewrite Hd. simpl. repeat split; auto.
  destruct (fetch w (putRequest config text)) as [resp|]; simpl; [|reflexivity].
  destruct (ok resp); reflexivity.
Qed.

(** C6: in every run of [syncServiceUpload] whose PUT is answered with an ok
    response, the run ends by writing Meta [{timestamp: T, etag: ''}], where
    [T] is the reading of [Date.now()] that was serialised, together with
    the notebook, into the text the PUT carried; whatever etag Meta held
    before is gone. *)
Theorem upload_success_resets_meta (w : World) (st : State)
        (req : Request) (resp : Response) :
  let st' := snd (syncServiceUpload w st) in
  let T := Date_now w (ticks st) in
  let m := {| etag := Some ""; timestamp := Some (JNum T) |} in
  In (EvFetch req) (issued st st') ->
  method req = "PUT" ->
  fetch w req = Some resp ->
  ok resp = true ->
  fst (syncServiceUpload w st) = Resolved tt
  /\ meta st' = Some m
  /\ (exists text,
        body req = Some text
        /\ JSON_stringify w T (notebook st') = Some text)
  /\ (exists evs, issued st st' = (evs ++ [EvFetch req; EvSetMeta m])%list).
Proof.
  intros st' T m Hin Hm Hf Hok.
  destruct (syncServiceUpload_put w st req Hin Hm)
    as (config & text & Hcfg & Hreq & Hdl & Hjs & Hrun).
  subst st'. rewrite Hrun, Hf, Hok. simpl.
  repeat split.
  - exists text. split; [now rewrite Hreq | exact Hjs].
  - destruct (download_shape w config st) as (_ & evs & Htr & _).
    exists (EvFetch (getRequest config (storedOrEmpty st)) :: evs).
    apply issued_app. simpl. rewrite Htr, <- !app_assoc. reflexivity.
Qed.

(** An upload over a Meta that held the etag ["e0"]: the remote answers 304
    to the download that comes first and 201 to the PUT. *)
Lemma upload_success_resets_meta_witness :
  let w := Samples.world [] (Some (Samples.response 304 None None)) true in
  let st := Samples.store (Some {| etag := Some "e0"; timestamp := Some (JNum 1000) |})
                          [Samples.word 3] in
  let req := putRequest Samples.config "{timestamp:2000,words:[*]}" in
  let st' := snd (syncServiceUpload w st) in
  let m := {| etag := Some ""; timestamp := Some (JNum 2000) |} in
  (In (EvFetch req) (issued st st')
   /\ method req = "PUT"
   /\ fetch w req = Some (Samples.response 201 None None)
   /\ ok (Samples.response 201 None None) = true)
  /\ fst (syncServiceUpload w st) = Resolved tt
  /\ meta st' = Some m
  /\ (exists text,
        body req = Some text
        /\ JSON_stringify w 2000 (notebook st') = Some text)
  /\ (exists evs, issued st st' = (evs ++ [EvFetch req; EvSetMeta m])%list).
Proof.
  intros w st req st' m.
  assert (Hin : In (EvFetch req) (issued st st')) by (right; left; reflexivity).
  split; [split; [exact Hin | repeat split; reflexivity]|].
  apply (upload_success_resets_meta w st req (Samples.response 201 None None));
    [exact Hin | reflexivity | reflexivity | reflexivity].
Defined.

(** C8: [dlChanged] sends [If-None-Match] and [If-Modified-Since] whenever
    the meta carries an etag, the empty string included; so the download
    cycle that follows a successful [syncServiceUpload] sends its GET with
    both headers set to the empty string. *)
Theorem empty_etag_is_sent (w : World) (config : SyncConfig) (m : Meta)
        (st : State) (e : string)
        (w0 : World) (st0 : State) (req : Request) (resp : Response) :
  etag m = Some e ->
  In (EvFetch req) (issued st0 (snd (syncServiceUpload w0 st0))) ->
  method req = "PUT" ->
  fetch w0 req = Some resp ->
  ok resp = true ->
  (headers (getRequest config m)
   = [authorization config; ("If-None-Match", e); ("If-Modified-Since", e)]
   /\ issued st (snd (dlChanged w config m st)) = [EvFetch (getRequest config m)])
  /\ (let st1 := snd (syncServiceUpload w0 st0) in
      exists g evs,
        issued st1 (snd (download w config st1)) = EvFetch g :: evs
        /\ method g = "GET"
        /\ headers g
           = [authorization config; ("If-None-Match", ""); ("If-Modified-Since", "")]).
Proof.
  intros He Hin Hm Hf Hok. split.
  - split.
    + simpl. unfold dlHeaders. rewrite He. reflexivity.
    + rewrite dlChanged_state. now apply issued_app.
  - destruct (syncServiceUpload_put w0 st0 req Hin Hm)
      as (config0 & text & _ & _ & _ & _ & Hrun).
    cbv zeta. rewrite Hrun, Hf, Hok. simpl.
    match goal with |- context [download w config ?s] => set (st1 := s) end.
    destruct (download_shape w config st1) as (_ & evs & Htr & _).
    exists (getRequest config (storedOrEmpty st1)), evs.
    split; [now apply issued_app | split; reflexivity].
Qed.

(** The empty etag at work: a GET built from the Meta [{etag: ''}], and the
    download cycle after the upload of [upload_success_resets_meta_witness]. *)
Lemma empty_etag_is_sent_witness :
  let w0 := Samples.world [] (Some (Samples.response 304 None None)) true in
  let st0 := Samples.store (Some {| etag := Some "e0"; timestamp := Some (JNum 1000) |})
                           [Samples.word 3] in
  let m := {| etag := Some ""; timestamp := Some (JNum 2000) |} in
  let config := Samples.config in
  let req := putRequest config "{timestamp:2000,words:[*]}" in
  (etag m = Some ""
   /\ In (EvFetch req) (issued st0 (snd (syncServiceUpload w0 st0)))
   /\ method req = "PUT"
   /\ fetch w0 req = Some (Samples.response 201 None None)
   /\ ok (Samples.response 201 None None) = true)
  /\ (headers (getRequest config m)
      = [authorization config; ("If-None-Match", ""); ("If-Modified-Since", "")]
      /\ issued st0 (snd (dlChanged w0 config m st0)) = [EvFetch (getRequest config m)])
  /\ (let st1 := snd (syncServiceUpload w0 st0) in
      exists g evs,
        issued st1 (snd (download w0 config st1)) = EvFetch g :: evs
        /\ method g = "GET"
        /\ headers g
           = [authorization config; ("If-None-Match", ""); ("If-Modified-Since", "")]).
Proof.
  intros w0 st0 m config req.
  assert (Hin : In (EvFetch req) (issued st0 (snd (syncServiceUpload w0 st0))))
    by (right; left; reflexivity).
  split; [split; [reflexivity | split; [exact Hin | repeat split; reflexivity]]|].
  apply (empty_etag_is_sent w0 config m st0 "" w0 st0 req
           (Samples.response 201 None None));
    [reflexivity | exact Hin | reflexivity | reflexivity | reflexivity].
Defined.

(** ** [reflect] *)

Section Reflect.
Import PromiseMore.
Variables E T : Type.

Lemma reflect_cons (p : entry E T) (rest : list (entry E T)) :
  reflect (p :: rest)
  = match Promise_resolve p, reflect rest with
    | _, RejectedWith e => RejectedWith e
    | Pending, _ => Pending
    | Fulfilled _, Pending => Pending
    | RejectedWith _, Pending => Pending
    | Fulfilled v, Fulfilled vs => Fulfilled (Some v :: vs)
    | RejectedWith _, Fulfilled vs => Fulfilled (None :: vs)
    end.
Proof.
  unfold reflect. simpl.
  destruct (Promise_resolve p); simpl;
    destruct (Promise_all _); reflexivity.
Qed.

Lemma reflect_never_rejects (iterable : list (entry E T)) :
  forall e : E, reflect iterable <> RejectedWith e.
Proof.
  induction iterable as [|p rest IH_any]; intros e.
  - discriminate.
  - rewrite reflect_cons.
    destruct (Promise_resolve p); destruct (reflect rest) as [|vs|e'] eqn:Hr;
      try discriminate; exfalso; apply (IH_any e'); reflexivity.
Qed.

Lemma reflect_settled (iterable : list (entry E T)) :
  forallb settled iterable = true ->
  reflect iterable = Fulfilled (List.map valueOrNull iterable).
Proof.
  induction iterable as [|p rest IH]; intros Hall.
  - reflexivity.
  - simpl in Hall. apply andb_true_iff in Hall. destruct Hall as [Hp Hrest].
    rewrite reflect_cons, (IH Hrest). simpl.
    unfold settled, valueOrNull in *.
    destruct (Promise_resolve p); [discriminate | reflexivity | reflexivity].
Qed.

Lemma reflect_pending (iterable : list (entry E T)) :
  forallb settled iterable = false -> reflect iterable = Pending.
Proof.
  induction iterable as [|p rest IH]; intros Hsome.
  - discriminate.
  - simpl in Hsome. rewrite reflect_cons.
    pose proof (reflect_never_rejects rest) as Hnr.
    unfold settled in Hsome at 1.
    destruct (Promise_resolve p); simpl in Hsome.
    + destruct (reflect rest) as [|vs|e'];
        [reflexivity | reflexivity | now elim (Hnr e')].
    + now rewrite (IH Hsome).
    + now rewrite (IH Hsome).
Qed.

(** C10: for every list of values and promises, [reflect] is never
    rejected; once every entry has settled it is fulfilled with a list of
    the same length, in the same order, that holds the value of each
    fulfilled entry and [null] for each rejected one. *)
Theorem reflect_always_resolves (iterable : list (entry E T)) :
  (forall e : E, reflect iterable <> RejectedWith e)
  /\ (forallb settled iterable = true ->
      reflect iterable = Fulfilled (List.map valueOrNull iterable)
      /\ List.length (List.map valueOrNull iterable) = List.length iterable
      /\ forall i p, nth_error iterable i = Some p ->
                     nth_error (List.map valueOrNull iterable) i
                     = Some (valueOrNull p)).
Proof.
  split; [apply reflect_never_rejects|].
  intros Hall. split; [now apply reflect_settled|].
  split; [apply length_map|].
  intros i p Hi. rewrite nth_error_map, Hi. reflexivity.
Qed.

End Reflect.

(** A plain value, a rejected promise and a fulfilled one. *)
Lemma reflect_always_resolves_witness :
  let iterable :=
    [PromiseMore.Value 1; PromiseMore.Thenable (PromiseMore.RejectedWith "boom");
     PromiseMore.Thenable (PromiseMore.Fulfilled 3)] in
  forallb PromiseMore.settled iterable = true
  /\ PromiseMore.reflect iterable
     = PromiseMore.Fulfilled [Some 1; None; Some 3].
Proof.
  intros iterable. split; [reflexivity|].
  apply (reflect_always_resolves string Z iterable). reflexivity.
Defined.

(** * Further properties of the synchronisation flow *)

(** ** [download] and [dlChanged] *)

(** A 304 answer ends the cycle at once: whatever body and ETag come with
    it, the cycle resolves and leaves Meta and the Notebook Store alone. *)
Theorem download_not_modified (w : World) (config : SyncConfig) (st : State)
        (resp : Response) :
  fetch w (getRequest config (storedOrEmpty st)) = Some resp ->
  status resp = 304 ->
  download w config st
  = (Resolved tt, pushed (EvFetch (getRequest config (storedOrEmpty st))) st).
Proof.
  intros Hf Hs. apply download_no_change.
  unfold dlChanged. run. rewrite Hf. simpl. rewrite Hs. reflexivity.
Qed.

Lemma download_not_modified_witness :
  let resp := Samples.response 304 (Some "e9")
                (Some (Samples.file 9000 [Samples.word 1])) in
  let w := Samples.world [] (Some resp) true in
  let st := Samples.store (Some {| etag := Some "e0"; timestamp := Some (JNum 1000) |})
                          [Samples.word 3] in
  (fetch w (getRequest Samples.config (storedOrEmpty st)) = Some resp
   /\ status resp = 304)
  /\ download w Samples.config st
     = (Resolved tt,
        pushed (EvFetch (getRequest Samples.config (storedOrEmpty st))) st).
Proof.
  intros resp w st. split; [split; reflexivity|].
  apply (download_not_modified w Samples.config st resp); reflexivity.
Defined.

Lemma someLacksDate_false_inv (ws : list json) :
  someLacksDate ws = Some false ->
  forall word, In word ws -> hasTruthyDate word.
Proof.
  induction ws as [|x rest IH]; simpl; intros H word Hin; [destruct Hin|].
  destruct (get_prop x "date") as [d|] eqn:Hd; [|discriminate].
  destruct (truthy d) eqn:Ht; simpl in H; [|discriminate].
  destruct Hin as [<- | Hin]; [exists d; auto | now apply IH].
Qed.

(** The four ways a download cycle can end, with the state each leaves. *)
Lemma download_cases (w : World) (config : SyncConfig) (st : State) :
  let g := EvFetch (getRequest config (storedOrEmpty st)) in
  (exists o, download w config st = (o, pushed g st)
             /\ (o = Resolved tt \/ o = Rejected FetchFailed
                 \/ o = Rejected TypeError \/ o = Unmodelled))
  \/ (exists f ts ws,
        fst (dlChanged w config (storedOrEmpty st) st) = Resolved (Some f)
        /\ get_prop (dl_json f) "timestamp" = Some ts
        /\ get_prop (dl_json f) "words" = Some (Some (JArr ws))
        /\ download w config st
           = (if storeAccepts w ws then Resolved tt else Rejected StoreFailed,
              appliedState w config st
                {| etag := Some (dl_etag f); timestamp := ts |} ws)).
Proof.
  cbv zeta.
  destruct (fst (dlChanged w config (storedOrEmpty st) st)) as [[f|]|e|] eqn:Hdl.
  - right.
    destruct (dlChanged_some_inv w config _ st f Hdl)
      as (resp & ws & _ & _ & _ & Hw & _).
    destruct (get_prop_total (dl_json f) "words" "timestamp" _ Hw) as (ts & Hts).
    exists f, ts, ws. repeat split; auto.
    now apply download_applied.
  - left. exists (Resolved tt). split; [now apply download_no_change | auto].
  - left. exists (Rejected e). split; [now apply download_rejected|].
    destruct (dlChanged_rejections w config _ st e Hdl) as [-> | ->]; auto.
  - left. exists Unmodelled. split; [now apply download_unmodelled | auto 6].
Qed.



(** Every word the download cycle hands to the Notebook Store has a truthy
    date: a cycle either leaves the notebook as it was or leaves it made of
    such words only. *)
Theorem download_writes_dated_words (w : World) (config : SyncConfig) (st : State) :
  let st' := snd (download w config st) in
  (forall ws, In (EvSaveWords ws) (issued st st') ->
              forall word, In word ws -> hasTruthyDate word)
  /\ (notebook st' = notebook st
      \/ forall word, In word (notebook st') -> hasTruthyDate word).
Proof.
  cbv zeta.
  destruct (download_cases w config st)
    as [(o & Hd & _) | (f & ts & ws & Hdl & _ & Hw & Hd)];
    rewrite Hd; simpl.
  - split; [|now left].
    rewrite (issued_app st _ [EvFetch (getRequest config (storedOrEmpty st))])
      by reflexivity.
    intros ws [H | []]. discriminate.
  - destruct (dlChanged_some_inv w config _ st f Hdl)
      as (resp & ws' & _ & _ & _ & Hw' & Hl & _).
    rewrite Hw in Hw'. injection Hw' as <-.
    pose proof (someLacksDate_false_inv ws Hl) as Hall.
    unfold appliedState. split.
    + rewrite (issued_app st _
                 [EvFetch (getRequest config (storedOrEmpty st));
                  EvSetMeta {| etag := Some (dl_etag f); timestamp := ts |};
                  EvSaveWords ws])
        by (destruct (storeAccepts w ws); simpl; rewrite <- !app_assoc; reflexivity).
      intros ws0 [H | [H | [H | []]]]; try discriminate.
      injection H as <-. exact Hall.
    + destruct (storeAccepts w ws); simpl; [right; exact Hall | now left].
Qed.






(** ** [initServer] *)

(** When the PROPFIND answer lists no [Saladict/], [initServer] sends
    exactly one MKCOL after the PROPFIND and nothing else; it resolves on an
    ok answer, is rejected with ["mkcol"] on any other answer, and passes the
    rejection of [fetch] on when the MKCOL gets no answer at all. *)
Theorem initServer_creates_missing_directory (w : World) (config : SyncConfig)
        (st : State) (r : Response) (text : string) (doc : Document) :
  fetch w (propfindRequest config) = Some r ->
  resp_text r = Some text ->
  parseFromString w text = Some doc ->
  some isSaladict doc = false ->
  issued st (snd (initServer w config st))
  = [EvFetch (propfindRequest config); EvFetch (mkcolRequest config)]
  /\ fst (initServer w config st)
     = match fetch w (mkcolRequest config) with
       | None => Rejected FetchFailed
       | Some r' => if ok r' then Resolved tt else Rejected (Reason "mkcol")
       end.
Proof.
  intros Hf Ht Hp Hs. unfold initServer. run.
  rewrite Hf. simpl. rewrite Ht. simpl. rewrite Hp. simpl. rewrite Hs. simpl.
  destruct (fetch w (mkcolRequest config)) as [r'|]; simpl;
    [destruct (ok r'); simpl|];
    (split; [apply issued_app; simpl; rewrite <- app_assoc; reflexivity
            | reflexivity]).
Qed.

Lemma initServer_creates_missing_directory_witness :
  let w := Samples.world Samples.docMissing None true in
  let st := Samples.store None [] in
  let r := Samples.response 207 None None in
  (fetch w (propfindRequest Samples.config) = Some r
   /\ resp_text r = Some "<multistatus/>"
   /\ parseFromString w "<multistatus/>" = Some Samples.docMissing
   /\ some isSaladict Samples.docMissing = false)
  /\ issued st (snd (initServer w Samples.config st))
     = [EvFetch (propfindRequest Samples.config);
        EvFetch (mkcolRequest Samples.config)]
  /\ fst (initServer w Samples.config st)
     = match fetch w (mkcolRequest Samples.config) with
       | None => Rejected FetchFailed
       | Some r' => if ok r' then Resolved tt else Rejected (Reason "mkcol")
       end.
Proof.
  intros w st r. split; [repeat split; reflexivity|].
  apply (initServer_creates_missing_directory w Samples.config st r
           "<multistatus/>" Samples.docMissing); reflexivity.
Defined.




(** ** [syncServiceUpload] and [syncServiceDownload] *)

(** With no configuration stored, neither entry point does anything: no
    request, no write, a normal return.  With a configuration but a notebook
    that is empty once the download cycle is over, [syncServiceUpload] is
    that download cycle and nothing more: no PUT, no reading of the clock. *)
Theorem syncServiceUpload_nothing_to_upload (w : World) (st : State) :
  match syncConfig st with
  | None =>
      syncServiceUpload w st = (Resolved tt, st)
      /\ syncServiceDownload w st = (Resolved tt, st)
  | Some config =>
      syncServiceDownload w st = download w config st
      /\ (notebook (snd (download w config st)) = [] ->
          syncServiceUpload w st = download w config st)
  end.
Proof.
  unfold syncServiceUpload, syncServiceDownload. run.
  destruct (syncConfig st) as [config|]; simpl; [|split; reflexivity].
  split; [reflexivity|].
  destruct (download w config st) as [[[]|e|] st1]; simpl; try reflexivity.
  intros ->. reflexivity.
Qed.

(** A remote notebook without any word is applied and then leaves nothing
    to upload. *)
Lemma syncServiceUpload_nothing_to_upload_witness :
  let w := Samples.world []
             (Some (Samples.response 200 (Some "e1") (Some (Samples.file 500 []))))
             true in
  let st := Samples.store None [Samples.word 3] in
  notebook (snd (download w Samples.config st)) = []
  /\ syncServiceUpload w st = download w Samples.config st.
Proof.
  intros w st. split; [reflexivity|].
  apply (syncServiceUpload_nothing_to_upload w st). reflexivity.
Defined.

(** When the PUT of a run fails, the upload step leaves Meta and the
    notebook as the download cycle left them.  An answer that is not ok is
    swallowed: the run resolves.  A PUT without any answer is not: the run is
    rejected with the failure of [fetch]. *)
Theorem syncServiceUpload_failed_put (w : World) (st : State) (req : Request) :
  let st' := snd (syncServiceUpload w st) in
  In (EvFetch req) (issued st st') ->
  method req = "PUT" ->
  fetch w req = None \/ (exists resp, fetch w req = Some resp /\ ok resp = false) ->
  exists config,
    syncConfig st = Some config
    /\ meta st' = meta (snd (download w config st))
    /\ notebook st' = notebook (snd (download w config st))
    /\ fst (syncServiceUpload w st)
       = match fetch w req with
         | None => Rejected FetchFailed
         | Some _ => Resolved tt
         end.
Proof.
  intros st' Hin Hm Hfail.
  destruct (syncServiceUpload_put w st req Hin Hm)
    as (config & text & Hcfg & _ & _ & _ & Hrun).
  exists config. split; [exact Hcfg|].
  subst st'. rewrite Hrun.
  destruct Hfail as [Hf | (resp & Hf & Hok)]; rewrite Hf; [|rewrite Hok];
    simpl; auto.
Qed.

(** A server that answers the PUT with 507. *)
Lemma syncServiceUpload_failed_put_witness :
  let full := Samples.response 507 None None in
  let w := {| fetch := Samples.server None (Some (Samples.response 304 None None))
                         (Some full) None;
              parseFromString := fun _ => None;
              Date_now := fun n => 2000 + Z.of_nat n;
              JSON_stringify := fun ts words => Some "text";
              storeAccepts := fun _ => true |} in
  let m := {| etag := Some "e0"; timestamp := Some (JNum 1000) |} in
  let st := Samples.store (Some m) [Samples.word 3] in
  let req := putRequest Samples.config "text" in
  (In (EvFetch req) (issued st (snd (syncServiceUpload w st)))
   /\ method req = "PUT"
   /\ fetch w req = Some full /\ ok full = false)
  /\ meta (snd (syncServiceUpload w st)) = Some m
  /\ fst (syncServiceUpload w st) = Resolved tt.
Proof.
  intros full w m st req.
  assert (Hin : In (EvFetch req) (issued st (snd (syncServiceUpload w st))))
    by (right; left; reflexivity).
  split; [split; [exact Hin | repeat split; reflexivity]|].
  destruct (syncServiceUpload_failed_put w st req Hin eq_refl)
    as (config & Hcfg & Hmeta & _ & Hout).
  - right. exists full. split; reflexivity.
  - injection Hcfg as <-. split; [exact Hmeta | exact Hout].
Defined.



(** * Further properties of the promise helpers *)

Section AnyFirst.
Import PromiseMore PromiseRest.
Variables E T : Type.

Lemma mapCounting_spec (arr : list (entry E T)) (c : nat) :
  mapCounting arr c
  = (List.map (fun p => catch (nullable (Promise_resolve p)) (fun _ => None)) arr,
     (c + List.length (List.filter isRejected arr))%nat).
Proof.
  revert c. induction arr as [|p rest IH]; intros c; simpl.
  - now rewrite Nat.add_0_r.
  - rewrite IH. destruct (isRejected p); simpl; f_equal; lia.
Qed.

Lemma any_unfold (arr : list (entry E T)) :
  any arr
  = then_ (reflect arr)
      (fun resolutions =>
         if (List.length (List.filter isRejected arr) =? List.length resolutions)%nat
         then RejectedWith AllRejected
         else Fulfilled resolutions).
Proof.
  unfold any. rewrite mapCounting_spec. reflexivity.
Qed.

Lemma filter_all_length {A} (f : A -> bool) (l : list A) :
  (List.length (List.filter f l) =? List.length l)%nat = forallb f l.
Proof.
  induction l as [|x rest IH]; simpl; [reflexivity|].
  destruct (f x); simpl; [exact IH|].
  pose proof (filter_length_le f rest).
  apply Nat.eqb_neq. lia.
Qed.

(** Once every entry has settled, [any] is rejected with the "All rejected"
    error exactly when every entry was rejected, which includes the empty
    array; otherwise it is fulfilled with the values in order, [null] in the
    place of each rejected entry. *)
Theorem any_settled (iterable : list (entry E T)) :
  forallb settled iterable = true ->
  any iterable
  = if forallb isRejected iterable
    then RejectedWith AllRejected
    else Fulfilled (List.map valueOrNull iterable).
Proof.
  intros Hall. rewrite any_unfold, (reflect_settled E T iterable Hall). simpl.
  now rewrite length_map, filter_all_length.
Qed.

(** [any] never hands on the rejection of an entry, stays pending exactly
    while some entry is pending, and whenever it is fulfilled it is
    fulfilled with what [reflect] gives. *)
Theorem any_against_reflect (iterable : list (entry E T)) :
  (forall e, any iterable <> RejectedWith (Passed e))
  /\ (any iterable = Pending <-> forallb settled iterable = false)
  /\ (forall vs, any iterable = Fulfilled vs -> reflect iterable = Fulfilled vs).
Proof.
  rewrite any_unfold.
  destruct (forallb settled iterable) eqn:Hall.
  - rewrite (reflect_settled E T iterable Hall). simpl.
    destruct (_ =? _)%nat; repeat split; try discriminate.
    intros vs H. injection H as <-. reflexivity.
  - rewrite (reflect_pending E T iterable Hall). simpl.
    repeat split; discriminate.
Qed.

End AnyFirst.

Lemma any_settled_witness :
  let arr := [PromiseMore.Thenable (PromiseMore.RejectedWith "boom");
              PromiseMore.Value 2] in
  (forallb PromiseMore.settled arr = true
   /\ forallb PromiseMore.settled (@nil (PromiseMore.entry string Z)) = true)
  /\ PromiseRest.any arr = PromiseMore.Fulfilled [None; Some 2]
  /\ PromiseRest.any (@nil (PromiseMore.entry string Z))
     = PromiseMore.RejectedWith PromiseRest.AllRejected.
Proof.
  intros arr. split; [split; reflexivity|]. split.
  - apply (any_settled string Z arr). reflexivity.
  - apply (any_settled string Z []). reflexivity.
Defined.

Section First.
Import PromiseMore PromiseRest.
Variables E T : Type.

(** Once the promise of [first] has settled, no later settlement moves it. *)
Lemma first_settled_stays (n : nat) (tl : list (settlement E T))
      (s : firstRun E T) :
  result s <> Pending ->
  result (fold_left (onSettle n) tl s) = result s.
Proof.
  revert s. induction tl as [|ev rest IH]; intros s Hs; simpl; [reflexivity|].
  assert (Hsettle : forall next, settle (result s) next = result s).
  { intros next. destruct (result s); simpl; try reflexivity. now elim Hs. }
  assert (Hstep : result (onSettle n s ev) = result s).
  { destruct ev; unfold onSettle; cbn [result]; [apply Hsettle|].
    destruct (S (rejectCount s) =? n)%nat; [apply Hsettle | reflexivity]. }
  rewrite IH; [exact Hstep | now rewrite Hstep].
Qed.

(** Rejections alone only count, until the count reaches the length. *)
Lemma first_rejections_count (n : nat) (tl : list (settlement E T))
      (s : firstRun E T) :
  forallb isRejects tl = true ->
  result s = Pending ->
  (rejectCount s + List.length tl < n)%nat ->
  fold_left (onSettle n) tl s
  = {| rejectCount := rejectCount s + List.length tl; result := Pending |}.
Proof.
  revert s. induction tl as [|ev rest IH]; intros s Hall Hs Hlt.
  - simpl. rewrite Nat.add_0_r. destruct s; simpl in *. now subst.
  - cbn [forallb List.length] in *.
    apply andb_true_iff in Hall. destruct Hall as [Hev Hrest].
    destruct ev as [v|e]; [discriminate|].
    assert (Hne : (S (rejectCount s) =? n)%nat = false) by (apply Nat.eqb_neq; lia).
    assert (Hstep : onSettle n s (Rejects e)
                    = {| rejectCount := S (rejectCount s); result := Pending |})
      by (unfold onSettle; rewrite Hne, Hs; reflexivity).
    cbn [fold_left]. rewrite Hstep, IH; cbn [rejectCount result]; auto.
    + f_equal. lia.
    + lia.
Qed.

Lemma timeline_app (arr : list (entry E T)) (a b : list nat) :
  timeline arr (a ++ b) = (timeline arr a ++ timeline arr b)%list.
Proof.
  unfold timeline. apply flat_map_app.
Qed.

Lemma settlementOf_length (arr : list (entry E T)) (i : nat) :
  (List.length (settlementOf arr i) <= if (i <? List.length arr)%nat then 1 else 0)%nat.
Proof.
  unfold settlementOf.
  destruct (nth_error arr i) as [p|] eqn:Hn.
  - assert (Hlt : (i < List.length arr)%nat) by (apply nth_error_Some; congruence).
    apply Nat.ltb_lt in Hlt. rewrite Hlt.
    destruct (Promise_resolve p); simpl; lia.
  - simpl. lia.
Qed.

Lemma timeline_length (arr : list (entry E T)) (order : list nat) :
  (List.length (timeline arr order)
   <= List.length (List.filter (fun i => (i <? List.length arr)%nat) order))%nat.
Proof.
  induction order as [|i rest IH]; simpl; [lia|].
  unfold timeline in *. simpl. rewrite length_app.
  pose proof (settlementOf_length arr i) as Hi.
  destruct (i <? List.length arr)%nat; simpl; lia.
Qed.

(** Distinct indices below [n]: there are at most [n] of them. *)
Lemma distinct_indices_bound (n : nat) (l : list nat) :
  NoDup l ->
  (List.length (List.filter (fun i => (i <? n)%nat) l) <= n)%nat.
Proof.
  intros Hnd.
  apply Nat.le_trans with (List.length (seq 0 n)); [|rewrite length_seq; lia].
  apply NoDup_incl_length; [now apply NoDup_filter|].
  intros i Hi. apply filter_In in Hi. destruct Hi as [_ Hi].
  apply Nat.ltb_lt in Hi. apply in_seq. lia.
Qed.

(** [first] is fulfilled with the value of the entry that is fulfilled
    first in time: when every entry that settles before it is rejected, the
    promise takes its value, whatever settles afterwards. *)
Theorem first_earliest_fulfilment (arr : list (entry E T)) (order pre post : list nat)
        (i : nat) (p : entry E T) (v : T) :
  NoDup order ->
  order = (pre ++ i :: post)%list ->
  nth_error arr i = Some p ->
  Promise_resolve p = Fulfilled v ->
  (forall j, In j pre -> forallb isRejects (settlementOf arr j) = true) ->
  first arr order = Fulfilled v.
Proof.
  intros Hnd -> Hi Hp Hpre. unfold first.
  rewrite timeline_app, fold_left_app.
  assert (Hrej : forallb isRejects (timeline arr pre) = true).
  { unfold timeline. clear Hnd. induction pre as [|j rest IH]; simpl; [reflexivity|].
    rewrite forallb_app, (Hpre j (or_introl eq_refl)). simpl.
    apply IH. intros k Hk. apply Hpre. now right. }
  assert (Hlen : (List.length (timeline arr pre) < List.length arr)%nat).
  { assert (Hvalid : (i <? List.length arr)%nat = true)
      by (apply Nat.ltb_lt, nth_error_Some; congruence).
    assert (Hnd' : NoDup (i :: pre)).
    { apply NoDup_remove in Hnd. destruct Hnd as [Hnd Hnotin].
      constructor.
      - intros Hin. apply Hnotin, in_or_app. now left.
      - now apply NoDup_app_remove_r in Hnd. }
    pose proof (distinct_indices_bound (List.length arr) (i :: pre) Hnd') as Hb.
    simpl in Hb. rewrite Hvalid in Hb. simpl in Hb.
    pose proof (timeline_length arr pre). lia. }
  rewrite (first_rejections_count (List.length arr) (timeline arr pre));
    [| exact Hrej | reflexivity | cbn [rejectCount]; lia].
  change (timeline arr (i :: post))
    with (settlementOf arr i ++ timeline arr post)%list.
  unfold settlementOf at 1. rewrite Hi, Hp.
  cbn [app fold_left onSettle result rejectCount settle].
  rewrite first_settled_stays; [reflexivity | discriminate].
Qed.

(** Rejections that bring the count to the length reject the promise. *)
Lemma first_rejections_reach (n : nat) (tl : list (settlement E T))
      (s : firstRun E T) :
  forallb isRejects tl = true ->
  result s = Pending ->
  tl <> [] ->
  (rejectCount s + List.length tl = n)%nat ->
  result (fold_left (onSettle n) tl s) = RejectedWith AllRejected.
Proof.
  revert s. induction tl as [|ev rest IH]; intros s Hall Hs Hne Hlen;
    [now elim Hne|].
  cbn [forallb List.length] in *.
  apply andb_true_iff in Hall. destruct Hall as [Hev Hrest].
  destruct ev as [v|e]; [discriminate|].
  cbn [fold_left].
  destruct rest as [|ev' rest'].
  - cbn [fold_left List.length] in *. unfold onSettle. cbn [result].
    assert (Heq : (S (rejectCount s) =? n)%nat = true) by (apply Nat.eqb_eq; lia).
    rewrite Heq, Hs. reflexivity.
  - assert (Hneq : (S (rejectCount s) =? n)%nat = false)
      by (apply Nat.eqb_neq; cbn [List.length] in Hlen; lia).
    assert (Hstep : onSettle n s (Rejects e)
                    = {| rejectCount := S (rejectCount s); result := Pending |})
      by (unfold onSettle; rewrite Hneq, Hs; reflexivity).
    rewrite Hstep. apply IH; cbn [rejectCount result]; auto; [discriminate | lia].
Qed.

Lemma allSettledIn_spec (arr : list (entry E T)) (order : list nat) :
  allSettledIn arr order = true
  <-> incl (seq 0 (List.length arr))
           (List.filter (fun i => (i <? List.length arr)%nat) order).
Proof.
  unfold allSettledIn. rewrite forallb_forall. split.
  - intros H i Hi. specialize (H i Hi).
    apply existsb_exists in H. destruct H as (j & Hj & Heq).
    apply Nat.eqb_eq in Heq. subst j.
    apply filter_In. split; [exact Hj|].
    apply in_seq in Hi. apply Nat.ltb_lt. lia.
  - intros H i Hi. apply H in Hi. apply filter_In in Hi. destruct Hi as [Hi _].
    apply existsb_exists. exists i. split; [exact Hi | apply Nat.eqb_refl].
Qed.

Lemma timeline_all_rejected (arr : list (entry E T)) (order : list nat) :
  forallb isRejected arr = true ->
  forallb isRejects (timeline arr order) = true
  /\ List.length (timeline arr order)
     = List.length (List.filter (fun i => (i <? List.length arr)%nat) order).
Proof.
  intros Hall. unfold timeline.
  induction order as [|i rest [IH1 IH2]]; [split; reflexivity|].
  cbn [flat_map List.filter]. rewrite forallb_app, length_app, IH1, IH2.
  unfold settlementOf.
  destruct (nth_error arr i) as [p|] eqn:Hn.
  - assert (Hlt : (i <? List.length arr)%nat = true)
      by (apply Nat.ltb_lt, nth_error_Some; congruence).
    rewrite Hlt.
    assert (Hp : isRejected p = true).
    { rewrite forallb_forall in Hall. apply Hall. eapply nth_error_In; eauto. }
    unfold isRejected in Hp.
    destruct (Promise_resolve p); try discriminate. split; reflexivity.
  - assert (Hlt : (i <? List.length arr)%nat = false)
      by (apply Nat.ltb_ge, nth_error_None; exact Hn).
    rewrite Hlt. split; reflexivity.
Qed.

(** When every entry is rejected, [first] is rejected with the "All
    rejected" error once the last of them has been, and is pending until
    then.  For the empty array there is no last one: the promise of
    [first([])] never settles. *)
Theorem first_all_rejected (arr : list (entry E T)) (order : list nat) :
  forallb isRejected arr = true ->
  NoDup order ->
  first arr order
  = if negb (List.length arr =? 0)%nat && allSettledIn arr order
    then RejectedWith AllRejected
    else Pending.
Proof.
  intros Hall Hnd. unfold first.
  destruct (timeline_all_rejected arr order Hall) as [Hrej Hlen].
  pose proof (distinct_indices_bound (List.length arr) order Hnd) as Hbound.
  set (valid := List.filter (fun i => (i <? List.length arr)%nat) order) in *.
  assert (Hvalid_nd : NoDup valid) by now apply NoDup_filter.
  assert (Hvalid_in : incl valid (seq 0 (List.length arr))).
  { intros i Hi. apply filter_In in Hi. destruct Hi as [_ Hi].
    apply Nat.ltb_lt in Hi. apply in_seq. lia. }
  destruct (allSettledIn arr order) eqn:Hset.
  - apply allSettledIn_spec in Hset. fold valid in Hset.
    assert (Hfull : List.length valid = List.length arr).
    { pose proof (NoDup_incl_length (seq_NoDup (List.length arr) 0) Hset) as H.
      rewrite length_seq in H. lia. }
    destruct (List.length arr =? 0)%nat eqn:Hz; cbn [negb andb].
    + apply Nat.eqb_eq in Hz.
      destruct (timeline arr order); [reflexivity|].
      cbn [List.length] in Hlen. lia.
    + apply Nat.eqb_neq in Hz.
      apply first_rejections_reach; cbn [rejectCount result]; auto; [|lia].
      intros Hnil. rewrite Hnil in Hlen. cbn [List.length] in Hlen. lia.
  - rewrite andb_false_r.
    assert (Hless : (List.length valid < List.length arr)%nat).
    { destruct (Nat.eq_dec (List.length valid) (List.length arr)) as [Heq|]; [|lia].
      exfalso.
      assert (Hincl : incl (seq 0 (List.length arr)) valid).
      { apply NoDup_length_incl; auto. rewrite length_seq. lia. }
      apply allSettledIn_spec in Hincl. congruence. }
    rewrite first_rejections_count; cbn [rejectCount result]; auto. lia.
Qed.

End First.

(** The second entry is fulfilled first, after the third was rejected; the
    first entry is fulfilled last. *)
Lemma first_earliest_fulfilment_witness :
  let arr := [PromiseMore.Thenable (PromiseMore.Fulfilled 1);
              PromiseMore.Value 2;
              PromiseMore.Thenable (PromiseMore.RejectedWith "boom")] in
  PromiseRest.first arr [2; 1; 0]%nat = PromiseMore.Fulfilled 2.
Proof.
  intros arr.
  apply (first_earliest_fulfilment string Z arr [2; 1; 0]%nat [2]%nat [0]%nat
           1%nat (PromiseMore.Value 2) 2).
  - repeat constructor; simpl; intuition discriminate.
  - reflexivity.
  - reflexivity.
  - reflexivity.
  - intros j [<- | []]. reflexivity.
Defined.

(** Two rejected entries, before and after the second one has settled; and
    the empty array. *)
Lemma first_all_rejected_witness :
  let arr := [PromiseMore.Thenable (PromiseMore.RejectedWith "a");
              PromiseMore.Thenable (PromiseMore.RejectedWith "b")] in
  PromiseRest.first (T := Z) arr [1]%nat = PromiseMore.Pending
  /\ PromiseRest.first (T := Z) arr [1; 0]%nat
     = PromiseMore.RejectedWith PromiseRest.AllRejected
  /\ PromiseRest.first (E := string) (T := Z) [] [] = PromiseMore.Pending.
Proof.
  intros arr. split; [|split].
  - apply (first_all_rejected string Z arr [1]%nat); [reflexivity|].
    repeat constructor; simpl; intuition discriminate.
  - apply (first_all_rejected string Z arr [1; 0]%nat); [reflexivity|].
    repeat constructor; simpl; intuition discriminate.
  - apply (first_all_rejected string Z [] []); [reflexivity | constructor].
Defined.

(** * The configuration store *)

Section ConfigStoreProperties.
Import ConfigStore.
Variable C : Type.

Lemma own_put_same (k : string) (c : C) (o : Configs C) :
  own k (put k c o) = Some c.
Proof.
  induction o as [|[k' c'] rest IH]; simpl.
  - now rewrite String.eqb_refl.
  - destruct (String.eqb k k') eqn:Hk; simpl; rewrite ?String.eqb_refl, ?Hk; auto.
Qed.

Lemma own_put_other (k k' : string) (c : C) (o : Configs C) :
  k' <> k -> own k' (put k c o) = own k' o.
Proof.
  intros Hne.
  assert (Hkk : String.eqb k' k = false) by now apply String.eqb_neq.
  induction o as [|[k0 c0] rest IH]; simpl.
  - now rewrite Hkk.
  - destruct (String.eqb k k0) eqn:Hk; simpl.
    + apply String.eqb_eq in Hk. subst k0. now rewrite Hkk.
    + destruct (String.eqb k' k0); auto.
Qed.

(** What a [setSyncConfig] that meets no [lastError] leaves in the area. *)
Lemma setSyncConfig_ok (serviceID : string) (config : C) (area : Area C) :
  setSyncConfig noFaults serviceID config area
  = (Resolved tt,
     let o := assign serviceID config
                (match held area with Some o => o | None => [] end) in
     {| held := Some o; written := (written area ++ [o])%list |}).
Proof.
  reflexivity.
Qed.

(** Round trip: after [setSyncConfig(serviceID, config)], [getSyncConfig]
    of the same service gives that configuration back, whatever the area
    held before, for every service name but ["__proto__"]. *)
Theorem getSyncConfig_after_set (serviceID : string) (config : C) (area : Area C) :
  serviceID <> "__proto__" ->
  fst (getSyncConfig noFaults serviceID
         (snd (setSyncConfig noFaults serviceID config area)))
  = Resolved (Own config).
Proof.
  intros Hne. rewrite setSyncConfig_ok. cbn.
  unfold assign, read.
  apply String.eqb_neq in Hne. rewrite Hne.
  now rewrite own_put_same.
Qed.

(** [setSyncConfig] of one service leaves what [getSyncConfig] gives for
    every other service as it was: the stored configurations of the others
    survive the read-modify-write.  (A name inherited from
    [Object.prototype] is left out: it reads as [undefined] only as long as
    nothing at all is stored.) *)
Theorem getSyncConfig_other_service (serviceID other : string) (config : C)
        (area : Area C) :
  other <> serviceID ->
  inherited other = false ->
  fst (getSyncConfig noFaults other
         (snd (setSyncConfig noFaults serviceID config area)))
  = fst (getSyncConfig noFaults other area).
Proof.
  intros Hne Hinh. rewrite setSyncConfig_ok. cbn.
  unfold assign, read.
  destruct (String.eqb serviceID "__proto__").
  - destruct (held area); simpl; [reflexivity | now rewrite Hinh].
  - rewrite own_put_other by exact Hne.
    destruct (held area); simpl; [reflexivity | now rewrite Hinh].
Qed.

(** When reading the area fails, [setSyncConfig] is rejected with the
    message of [lastError] and never calls [set]; when the write fails, it is
    rejected with that message after exactly one call of [set]. *)
Theorem setSyncConfig_faults (faults : Faults) (serviceID : string) (config : C)
        (area : Area C) (message : string) :
  (getError faults = Some message ->
   setSyncConfig faults serviceID config area = (Rejected (Reason message), area))
  /\ (getError faults = None -> setError faults = Some message ->
      fst (setSyncConfig faults serviceID config area) = Rejected (Reason message)
      /\ exists o, written (snd (setSyncConfig faults serviceID config area))
                   = (written area ++ [o])%list).
Proof.
  unfold setSyncConfig, storageGet, storageSet. split.
  - intros ->. reflexivity.
  - intros -> ->. simpl. eauto.
Qed.

End ConfigStoreProperties.

Lemma getSyncConfig_after_set_witness :
  let area := {| ConfigStore.held := Some [("webdav", 1); ("other", 2)];
                 ConfigStore.written := [] |} in
  "webdav" <> "__proto__"
  /\ fst (ConfigStore.getSyncConfig ConfigStore.noFaults "webdav"
            (snd (ConfigStore.setSyncConfig ConfigStore.noFaults "webdav" 7 area)))
     = Resolved (ConfigStore.Own 7).
Proof.
  intros area. split; [discriminate|].
  apply (getSyncConfig_after_set Z "webdav" 7 area). discriminate.
Defined.

Lemma getSyncConfig_other_service_witness :
  let area := {| ConfigStore.held := Some [("webdav", 1); ("other", 2)];
                 ConfigStore.written := [] |} in
  ("other" <> "webdav" /\ ConfigStore.inherited "other" = false)
  /\ fst (ConfigStore.getSyncConfig ConfigStore.noFaults "other"
            (snd (ConfigStore.setSyncConfig ConfigStore.noFaults "webdav" 7 area)))
     = Resolved (ConfigStore.Own 2).
Proof.
  intros area. split; [split; [discriminate | reflexivity]|].
  apply (getSyncConfig_other_service Z "webdav" "other" 7 area);
    [discriminate | reflexivity].
Defined.

Lemma setSyncConfig_faults_witness :
  let faults := {| ConfigStore.getError := Some "QUOTA_BYTES quota exceeded";
                   ConfigStore.setError := None |} in
  let area := {| ConfigStore.held := Some [("webdav", 1)];
                 ConfigStore.written := [] |} in
  ConfigStore.getError faults = Some "QUOTA_BYTES quota exceeded"
  /\ ConfigStore.setSyncConfig faults "webdav" 7 area
     = (Rejected (Reason "QUOTA_BYTES quota exceeded"), area).
Proof.
  intros faults area. split; [reflexivity|].
  apply (setSyncConfig_faults Z faults "webdav" 7 area "QUOTA_BYTES quota exceeded").
  reflexivity.
Defined.

(** * Self page messaging *)

Section SelfMessaging.
Import BrowserApi.
Variable P : Type.

Lemma length_append (a b : string) :
  String.length (a ++ b) = (String.length a + String.length b)%nat.
Proof.
  induction a as [|c a IH]; simpl; [reflexivity | now rewrite IH].
Qed.

Lemma beforeTail_app (m : string) : beforeTail (m ++ "_&_") = Some m.
Proof.
  induction m as [|c m IH]; [reflexivity|].
  cbn [append beforeTail]. rewrite IH.
  assert (Hne : String.eqb (String c (m ++ "_&_")) "_&_" = false).
  { apply String.eqb_neq. intros H. apply (f_equal String.length) in H.
    cbn [String.length] in H. rewrite length_append in H. simpl in H. lia. }
  now rewrite Hne.
Qed.

Lemma beforeTail_inv (s mid : string) :
  beforeTail s = Some mid -> s = mid ++ "_&_".
Proof.
  revert mid. induction s as [|c s IH]; intros mid; [discriminate|].
  cbn [beforeTail].
  destruct (String.eqb (String c s) "_&_") eqn:Heq.
  - apply String.eqb_eq in Heq. intros H. injection H as <-. exact Heq.
  - destruct (beforeTail s) as [mid'|]; [|discriminate].
    intros H. injection H as <-. simpl. f_equal. now apply IH.
Qed.

Lemma selfMsgTester_wrapped (m : string) :
  selfMsgTester (selfMsg m)
  = if negb (String.eqb m "") && noLineTerminator m then Some m else None.
Proof.
  unfold selfMsg. cbn [append selfMsgTester]. now rewrite beforeTail_app.
Qed.

(** Wrapping and unwrapping a self message: the background page recovers
    exactly the [msg] that [messageSendSelf] wrapped, provided it is not
    empty and holds no line terminator; an empty [msg], or one with a line
    terminator, is not recognised as a self message at all, and the
    background page ignores the message. *)
Theorem selfMsg_round_trip (windowPageId : option PageId) (answer : PageId)
        (message : Message P) (sender : Sender) :
  let sent := snd (messageSendSelf windowPageId answer message) in
  selfMsgTester (msg sent)
  = (if negb (String.eqb (msg message) "") && noLineTerminator (msg message)
     then Some (msg message) else None)
  /\ (msg message = "" \/ noLineTerminator (msg message) = false ->
      backgroundListener (Some sent) sender = Ignored).
Proof.
  cbv zeta.
  assert (Hmsg : msg (snd (messageSendSelf windowPageId answer message))
                 = selfMsg (msg message))
    by (destruct windowPageId; reflexivity).
  split.
  - rewrite Hmsg. apply selfMsgTester_wrapped.
  - intros Hbad. unfold backgroundListener.
    rewrite Hmsg, selfMsgTester_wrapped.
    assert (Hcond : negb (String.eqb (msg message) "")
                    && noLineTerminator (msg message) = false).
    { destruct Hbad as [-> | ->]; [reflexivity | apply andb_false_r]. }
    rewrite Hcond. reflexivity.
Qed.

(** The background page takes for a self message only what has the shape
    [messageSendSelf] gives: [selfMsgTester] succeeds on [s] with [mid]
    exactly when [s] is [mid] between the two marks, [mid] being non-empty
    and free of line terminators. *)
Theorem selfMsgTester_spec (s mid : string) :
  selfMsgTester s = Some mid
  <-> s = selfMsg mid /\ mid <> "" /\ noLineTerminator mid = true.
Proof.
  split.
  - intros H.
    assert (Hshape : exists rest, s = String "_" (String "&" (String "_" rest))).
    { destruct s as [|c0 s1]; [discriminate|].
      destruct c0 as [[] [] [] [] [] [] [] []]; try (cbn in H; discriminate).
      destruct s1 as [|c1 s2]; [discriminate|].
      destruct c1 as [[] [] [] [] [] [] [] []]; try (cbn in H; discriminate).
      destruct s2 as [|c2 s3]; [discriminate|].
      destruct c2 as [[] [] [] [] [] [] [] []]; try (cbn in H; discriminate).
      eauto. }
    destruct Hshape as (rest & ->). revert H. cbn [selfMsgTester].
    destruct (beforeTail rest) as [mid'|] eqn:Hb; [|discriminate].
    destruct (String.eqb mid' "") eqn:He; simpl; [discriminate|].
    destruct (noLineTerminator mid') eqn:Hn; [|discriminate].
    intros H. injection H as <-.
    apply beforeTail_inv in Hb. apply String.eqb_neq in He.
    repeat split; auto. unfold selfMsg. simpl. now rewrite Hb.
  - intros (-> & Hne & Hn). rewrite selfMsgTester_wrapped, Hn.
    apply String.eqb_neq in Hne. now rewrite Hne.
Qed.

Lemma pageId_eqb_eq (a b : PageId) : pageId_eqb a b = true <-> a = b.
Proof.
  destruct a, b; simpl; split; intros H; try discriminate; try reflexivity.
  - apply Z.eqb_eq in H. now subst.
  - injection H as ->. apply Z.eqb_refl.
Qed.

(** A self message comes back to the page that sent it and to no other.
    Sent from a page whose id is unknown or is the id the background page
    gives it, a message with a proper [msg] is relayed by the background
    page to the tab of the sender (to the runtime for a page without tab),
    with its [msg] restored and its payload untouched; and a callback
    registered with [messageListenSelf] is called on the relayed message
    exactly on a page with that very id, when it listens to that [msg] or
    to every message. *)
Theorem self_message_reaches_own_page (sender : Sender)
        (windowPageId : option PageId) (message : Message P) :
  msg message <> "" ->
  noLineTerminator (msg message) = true ->
  windowPageId = None \/ windowPageId = Some (getPageId sender) ->
  let id := getPageId sender in
  let sent := snd (messageSendSelf windowPageId id message) in
  let relayed := {| msg := msg message; pageId := Some id;
                    payload := payload message |} in
  fst (messageSendSelf windowPageId id message) = Some id
  /\ backgroundListener (Some sent) sender
     = match tab sender with
       | Some tabId => RelayedToTab tabId relayed
       | None => RelayedToRuntime relayed
       end
  /\ forall (page : option PageId) (listened : string),
       selfListener page listened (Some relayed) = true
       <-> page = Some id /\ (listened = "" \/ listened = msg message).
Proof.
  intros Hne Hn Hid. cbv zeta.
  assert (Hsent : messageSendSelf windowPageId (getPageId sender) message
                  = (Some (getPageId sender),
                     {| msg := selfMsg (msg message);
                        pageId := Some (getPageId sender);
                        payload := payload message |}))
    by (destruct Hid as [-> | ->]; reflexivity).
  rewrite Hsent. cbn [fst snd]. split; [reflexivity|]. split.
  - unfold backgroundListener. cbn [msg pageId payload].
    rewrite selfMsgTester_wrapped, Hn.
    apply String.eqb_neq in Hne. rewrite Hne. reflexivity.
  - intros page listened. unfold selfListener. cbn [msg pageId].
    rewrite andb_true_iff, orb_true_iff, !String.eqb_eq.
    destruct page as [q|]; simpl.
    + rewrite pageId_eqb_eq. split.
      * intros [-> [H | H]]; auto.
      * intros [H [-> | ->]]; injection H as ->; auto.
    + split; [intros [H _]; discriminate | intros [H _]; discriminate].
Qed.

Lemma noLineTerminator_append (a b : string) :
  noLineTerminator (a ++ b) = noLineTerminator a && noLineTerminator b.
Proof.
  induction a as [|c a IH]; simpl; [reflexivity|].
  now rewrite IH, andb_assoc.
Qed.

(** [messageSendSelf] writes the wrapped [msg] into the message it is
    given, so a message object that is sent a second time is wrapped twice.
    The background page takes off one layer only: what it relays still
    carries the marks, and no [messageListenSelf] callback that listens to
    the original [msg] is called on it, on any page. *)
Theorem messageSendSelf_twice (windowPageId : option PageId) (answer : PageId)
        (message : Message P) (sender : Sender) :
  msg message <> "" ->
  noLineTerminator (msg message) = true ->
  let first := messageSendSelf windowPageId answer message in
  let second := messageSendSelf (fst first) answer (snd first) in
  let relayed := {| msg := selfMsg (msg message); pageId := pageId (snd second);
                    payload := payload message |} in
  msg (snd second) = selfMsg (selfMsg (msg message))
  /\ backgroundListener (Some (snd second)) sender
     = match tab sender with
       | Some tabId => RelayedToTab tabId relayed
       | None => RelayedToRuntime relayed
       end
  /\ forall page, selfListener page (msg message) (Some relayed) = false.
Proof.
  intros Hne Hn. cbv zeta.
  assert (Hfirst : messageSendSelf windowPageId answer message
                   = (fst (messageSendSelf windowPageId answer message),
                      {| msg := selfMsg (msg message);
                         pageId := pageId (snd (messageSendSelf windowPageId
                                                  answer message));
                         payload := payload message |}))
    by (destruct windowPageId; reflexivity).
  set (w1 := fst (messageSendSelf windowPageId answer message)) in *.
  rewrite Hfirst. cbn [snd].
  match goal with
  | |- context [messageSendSelf w1 answer ?m] => set (m1 := m)
  end.
  assert (Hsecond : exists id, snd (messageSendSelf w1 answer m1)
                               = {| msg := selfMsg (selfMsg (msg message));
                                    pageId := Some id;
                                    payload := payload message |})
    by (destruct w1 as [id|]; eexists; reflexivity).
  destruct Hsecond as (id & Hsecond). rewrite Hsecond. cbn [msg pageId payload].
  split; [reflexivity|]. split.
  - unfold backgroundListener. cbn [msg pageId payload].
    rewrite selfMsgTester_wrapped.
    assert (Hin : noLineTerminator (selfMsg (msg message)) = true).
    { unfold selfMsg. rewrite !noLineTerminator_append, Hn. reflexivity. }
    rewrite Hin. reflexivity.
  - intros page. unfold selfListener. cbn [msg pageId].
    apply String.eqb_neq in Hne. rewrite Hne. cbn [orb].
    assert (Hdiff : String.eqb (selfMsg (msg message)) (msg message) = false).
    { apply String.eqb_neq. intros H. apply (f_equal String.length) in H.
      unfold selfMsg in H. rewrite !length_append in H. simpl in H. lia. }
    rewrite Hdiff. apply andb_false_r.
Qed.

End SelfMessaging.

Lemma selfMsgTester_spec_witness :
  BrowserApi.selfMsgTester "_&_OPEN_&_" = Some "OPEN"
  /\ "_&_OPEN_&_" = BrowserApi.selfMsg "OPEN".
Proof.
  split; [|reflexivity].
  apply (proj2 (selfMsgTester_spec "_&_OPEN_&_" "OPEN")).
  repeat split. discriminate.
Defined.

(** A content script in tab 7 sends its first self message. *)
Lemma self_message_reaches_own_page_witness :
  let sender := {| BrowserApi.tab := Some 7 |} in
  let message := {| BrowserApi.msg := "OPEN"; BrowserApi.pageId := None;
                    BrowserApi.payload := 42 |} in
  let relayed := {| BrowserApi.msg := "OPEN";
                    BrowserApi.pageId := Some (BrowserApi.TabId 7);
                    BrowserApi.payload := 42 |} in
  BrowserApi.backgroundListener
    (Some (snd (BrowserApi.messageSendSelf None (BrowserApi.TabId 7) message)))
    sender
  = BrowserApi.RelayedToTab 7 relayed
  /\ BrowserApi.selfListener (Some (BrowserApi.TabId 7)) "OPEN" (Some relayed) = true
  /\ BrowserApi.selfListener (Some (BrowserApi.TabId 8)) "OPEN" (Some relayed) = false.
Proof.
  intros sender message relayed.
  destruct (self_message_reaches_own_page Z sender None message)
    as (_ & Hrelay & Hlisten);
    [discriminate | reflexivity | now left |].
  split; [exact Hrelay|]. split.
  - apply Hlisten. split; [reflexivity | now right].
  - destruct (BrowserApi.selfListener (Some (BrowserApi.TabId 8)) "OPEN"
                (Some relayed)) eqn:H; [|reflexivity].
    apply Hlisten in H. destruct H as [H _]. discriminate.
Defined.

(** * Message listeners *)

Section MessageBusProperties.
Import MessageBus.

Lemma getListeners_set_same (cb : nat) (ls : Listeners) (m : list (nat * Listeners)) :
  getListeners cb (setListeners cb ls m) = Some ls.
Proof.
  induction m as [|[k ls'] rest IH]; simpl.
  - now rewrite Nat.eqb_refl.
  - destruct (Nat.eqb cb k) eqn:Hk; simpl; rewrite Hk; auto.
Qed.

Lemma getListeners_set_other (cb cb' : nat) (ls : Listeners)
      (m : list (nat * Listeners)) :
  cb' <> cb -> getListeners cb' (setListeners cb ls m) = getListeners cb' m.
Proof.
  intros Hne.
  assert (Hkk : Nat.eqb cb' cb = false) by now apply Nat.eqb_neq.
  induction m as [|[k ls'] rest IH]; simpl.
  - now rewrite Hkk.
  - destruct (Nat.eqb cb k) eqn:Hk; simpl.
    + apply Nat.eqb_eq in Hk. subst k. now rewrite Hkk.
    + destruct (Nat.eqb cb' k); auto.
Qed.

Lemma getCallback_set_same (msg : string) (c : callback) (ls : Listeners) :
  getCallback msg (setCallback msg c ls) = Some c.
Proof.
  induction ls as [|[k c'] rest IH]; simpl.
  - now rewrite String.eqb_refl.
  - destruct (String.eqb msg k) eqn:Hk; simpl; rewrite Hk; auto.
Qed.

Lemma getCallback_set_other (msg msg' : string) (c : callback) (ls : Listeners) :
  msg' <> msg -> getCallback msg' (setCallback msg c ls) = getCallback msg' ls.
Proof.
  intros Hne.
  assert (Hkk : String.eqb msg' msg = false) by now apply String.eqb_neq.
  induction ls as [|[k c'] rest IH]; simpl.
  - now rewrite Hkk.
  - destruct (String.eqb msg k) eqn:Hk; simpl.
    + apply String.eqb_eq in Hk. subst k. now rewrite Hkk.
    + destruct (String.eqb msg' k); auto.
Qed.

(** What [listenWith] adds, and what it keeps for its own pair. *)
Lemma listenWith_same (make : string -> nat -> callback) (msg : string) (cb : nat)
      (bus : Bus) :
  let c := match kept bus cb msg with
           | Some c => c
           | None => make msg cb
           end in
  calls (listenWith make msg cb bus) = (calls bus ++ [AddListener c])%list
  /\ kept (listenWith make msg cb bus) cb msg = Some c.
Proof.
  unfold listenWith, kept. cbn [calls listenerMap].
  rewrite getListeners_set_same.
  destruct (getListeners cb (listenerMap bus)) as [ls|]; cbn zeta.
  - destruct (getCallback msg ls) as [c|] eqn:Hc; split; auto.
    apply getCallback_set_same.
  - simpl. rewrite String.eqb_refl. split; reflexivity.
Qed.

(** Nothing that is kept is ever replaced or forgotten. *)
Lemma listenWith_keeps (make : string -> nat -> callback) (msg msg' : string)
      (cb cb' : nat) (bus : Bus) (c : callback) :
  kept bus cb' msg' = Some c ->
  kept (listenWith make msg cb bus) cb' msg' = Some c.
Proof.
  intros Hk.
  destruct (Nat.eq_dec cb' cb) as [->|Hcb].
  - destruct (String.eqb_spec msg' msg) as [->|Hmsg].
    + destruct (listenWith_same make msg cb bus) as [_ H]. rewrite H, Hk. reflexivity.
    + revert Hk. unfold listenWith, kept. cbn [listenerMap].
      rewrite getListeners_set_same.
      destruct (getListeners cb (listenerMap bus)) as [ls|]; [|discriminate].
      destruct (getCallback msg ls); auto.
      now rewrite getCallback_set_other.
  - revert Hk. unfold listenWith, kept. cbn [listenerMap].
    now rewrite getListeners_set_other.
Qed.

Lemma perform_keeps (op : operation) (bus : Bus) (cb : nat) (msg : string)
      (c : callback) :
  kept bus cb msg = Some c -> kept (perform bus op) cb msg = Some c.
Proof.
  intros Hk. destruct op as [m k|m k|l m]; simpl.
  - now apply listenWith_keeps.
  - unfold messageListenSelf. apply listenWith_keeps.
    destruct (pageIdKnown bus); exact Hk.
  - exact Hk.
Qed.

Lemma performAll_keeps (ops : list operation) (bus : Bus) (cb : nat) (msg : string)
      (c : callback) :
  kept bus cb msg = Some c -> kept (performAll ops bus) cb msg = Some c.
Proof.
  unfold performAll. revert bus.
  induction ops as [|op rest IH]; intros bus Hk; simpl; [exact Hk|].
  apply IH. now apply perform_keeps.
Qed.

Lemma kept_callback_is_used_aux (bus : Bus) (ops : list operation) (cb : nat)
      (msg : string) (c : callback) :
  kept bus cb msg = Some c ->
  calls (messageStopListen cb (Some msg) (performAll ops bus))
  = (calls (performAll ops bus) ++ [RemoveListener c])%list
  /\ exists pre, calls (messageListenSelf msg cb (performAll ops bus))
                 = (pre ++ [AddListener c])%list.
Proof.
  intros Hk.
  pose proof (performAll_keeps ops bus cb msg c Hk) as Hk'.
  set (bus' := performAll ops bus) in *.
  split.
  - unfold messageStopListen. cbn [calls].
    unfold kept in Hk'.
    destruct (getListeners cb (listenerMap bus')) as [ls|]; [|discriminate].
    now rewrite Hk'.
  - unfold messageListenSelf.
    match goal with |- context [listenWith SelfFilter msg cb ?b] => set (b0 := b) end.
    assert (Hk0 : kept b0 cb msg = Some c)
      by (subst b0; destruct (pageIdKnown bus'); exact Hk').
    destruct (listenWith_same SelfFilter msg cb b0) as [H _].
    rewrite Hk0 in H. eauto.
Qed.

(** The function kept for a callback and a message name is the one every
    later call hands to the host: [messageListen] and [messageListenSelf]
    add it again, and [messageStopListen] with that name removes it and
    nothing else, whatever listener operations came in between. *)
Theorem kept_callback_is_used (bus : Bus) (ops : list operation) (cb : nat)
        (msg : string) (c : callback) :
  kept bus cb msg = Some c ->
  let bus' := performAll ops bus in
  calls (messageListen msg cb bus') = (calls bus' ++ [AddListener c])%list
  /\ (exists pre, calls (messageListenSelf msg cb bus')
                  = (pre ++ [AddListener c])%list)
  /\ calls (messageStopListen cb (Some msg) bus')
     = (calls bus' ++ [RemoveListener c])%list.
Proof.
  intros Hk bus'.
  pose proof (performAll_keeps ops bus cb msg c Hk) as Hk'. fold bus' in Hk'.
  destruct (kept_callback_is_used_aux bus ops cb msg c Hk) as (Hs & Hl).
  fold bus' in Hs, Hl.
  split; [|split; assumption].
  unfold messageListen.
  destruct (listenWith_same
              (fun msg cb => if String.eqb msg "" then User cb else Filter msg cb)
              msg cb bus') as [H _].
  now rewrite Hk' in H.
Qed.

(** What [messageStopListen(cb, msg)] removes is what [messageListen(msg,
    cb)] added; and when [messageListen] came first for a callback and a
    message name, a later [messageListenSelf] for the same pair adds the
    function of [messageListen], which does not look at the page id. *)
Theorem first_listen_decides (bus : Bus) (ops : list operation) (cb : nat)
        (msg : string) :
  kept bus cb msg = None ->
  let plain := if String.eqb msg "" then User cb else Filter msg cb in
  let bus1 := messageListen msg cb bus in
  let bus2 := performAll ops bus1 in
  calls bus1 = (calls bus ++ [AddListener plain])%list
  /\ calls (messageStopListen cb (Some msg) bus2)
     = (calls bus2 ++ [RemoveListener plain])%list
  /\ exists pre, calls (messageListenSelf msg cb bus2)
                 = (pre ++ [AddListener plain])%list.
Proof.
  intros Hnone plain bus1 bus2.
  destruct (listenWith_same
              (fun msg cb => if String.eqb msg "" then User cb else Filter msg cb)
              msg cb bus) as [Hcalls Hkept].
  rewrite Hnone in Hcalls, Hkept. fold plain in Hcalls, Hkept.
  fold (messageListen msg cb bus) in Hcalls, Hkept. fold bus1 in Hcalls, Hkept.
  split; [exact Hcalls|].
  destruct (kept_callback_is_used_aux bus1 ops cb msg plain Hkept) as (Hs & Hl).
  split; assumption.
Qed.

End MessageBusProperties.

(** A self listener, stopped and joined by another listener of the same
    callback, is still known by the function made for it. *)
Lemma kept_callback_is_used_witness :
  let bus := MessageBus.messageListenSelf "OPEN" 5 quietBus in
  let ops := [MessageBus.StopListen 5 None; MessageBus.Listen "CLOSE" 5] in
  let bus' := MessageBus.performAll ops bus in
  MessageBus.kept bus 5%nat "OPEN" = Some (MessageBus.SelfFilter "OPEN" 5)
  /\ MessageBus.calls (MessageBus.messageStopListen 5 (Some "OPEN") bus')
     = (MessageBus.calls bus'
        ++ [MessageBus.RemoveListener (MessageBus.SelfFilter "OPEN" 5)])%list.
Proof.
  intros bus ops bus'. split; [reflexivity|].
  apply (kept_callback_is_used bus ops 5%nat "OPEN"
           (MessageBus.SelfFilter "OPEN" 5)).
  reflexivity.
Defined.

(** [message.listen('OPEN', cb)], [message.off(cb, 'OPEN')], then
    [message.self.listen('OPEN', cb)]: the function added last is the one
    without the page check. *)
Lemma first_listen_decides_witness :
  let ops := [MessageBus.StopListen 5 (Some "OPEN")] in
  let bus2 := MessageBus.performAll ops (MessageBus.messageListen "OPEN" 5 quietBus) in
  MessageBus.kept quietBus 5%nat "OPEN" = None
  /\ exists pre,
       MessageBus.calls (MessageBus.messageListenSelf "OPEN" 5 bus2)
       = (pre ++ [MessageBus.AddListener (MessageBus.Filter "OPEN" 5)])%list.
Proof.
  intros ops bus2. split; [reflexivity|].
  apply (first_listen_decides quietBus ops 5%nat "OPEN"). reflexivity.
Defined.

(** An empty [msg] does not come back. *)
Lemma selfMsg_round_trip_witness :
  let message := {| BrowserApi.msg := ""; BrowserApi.pageId := None;
                    BrowserApi.payload := 42 |} in
  let sent := snd (BrowserApi.messageSendSelf (Some BrowserApi.Popup)
                     BrowserApi.Popup message) in
  BrowserApi.msg sent = "_&__&_"
  /\ BrowserApi.backgroundListener (Some sent) {| BrowserApi.tab := None |}
     = BrowserApi.Ignored.
Proof.
  intros message sent. split; [reflexivity|].
  apply (selfMsg_round_trip Z (Some BrowserApi.Popup) BrowserApi.Popup message
           {| BrowserApi.tab := None |}).
  left. reflexivity.
Defined.

(** The same message object handed to [messageSendSelf] twice. *)
Lemma messageSendSelf_twice_witness :
  let message := {| BrowserApi.msg := "OPEN"; BrowserApi.pageId := None;
                    BrowserApi.payload := 42 |} in
  let id := BrowserApi.TabId 7 in
  let first := BrowserApi.messageSendSelf (Some id) id message in
  let second := BrowserApi.messageSendSelf (fst first) id (snd first) in
  BrowserApi.msg (snd second) = "_&__&_OPEN_&__&_"
  /\ BrowserApi.selfListener (Some id) "OPEN"
       (Some {| BrowserApi.msg := "_&_OPEN_&_";
                BrowserApi.pageId := Some id;
                BrowserApi.payload := 42 |}) = false.
Proof.
  intros message id first second.
  destruct (messageSendSelf_twice Z (Some id) id message
              {| BrowserApi.tab := Some 7 |})
    as (Hmsg & _ & Hquiet); [discriminate | reflexivity |].
  split; [exact Hmsg | exact (Hquiet (Some id))].
Defined.
